(** * FastMCP resources: [Resource] and [ResourceTemplate]

    A shallow embedding of
    [src/mcp/server/fastmcp/resources/base.py] and
    [src/mcp/server/fastmcp/resources/templates.py], together with the
    fragment of Python's [str] and [re] that [ResourceTemplate.matches]
    relies on, and the properties of the resource layer proved over it. *)

From Stdlib Require Import Ascii ZArith Lia Bool.
From stdpp Require Import base option list strings gmap fin_maps.

Set Default Proof Using "Type".

(** ** Python strings *)

(** Python [str] values are modelled as [string]; a character is one
    [ascii] code. *)
Module PyStr.

Fixpoint startswith (p s : string) : bool :=
  match p, s with
  | EmptyString, _ => true
  | String a p', String b s' => if decide (a = b) then startswith p' s' else false
  | String _ _, EmptyString => false
  end.

(** [replace_from old new skip s]: the scan of [str.replace] for a
    non-empty [old]; [skip] counts the characters of the occurrence of
    [old] found last that are still to be passed over. *)
Fixpoint replace_from (old new : string) (skip : nat) (s : string) : string :=
  match s with
  | EmptyString => EmptyString
  | String c s' =>
      match skip with
      | S k => replace_from old new k s'
      | O =>
          if startswith old s
          then new +:+ replace_from old new (String.length old - 1) s'
          else String c (replace_from old new 0 s')
      end
  end.

Fixpoint intersperse (new s : string) : string :=
  match s with
  | EmptyString => new
  | String c s' => new +:+ String c (intersperse new s')
  end.

(** [s.replace(old, new)]: every non-overlapping occurrence of [old],
    scanning from the left, becomes [new]; an empty [old] occurs before
    every character and at the end. *)
Definition replace (s old new : string) : string :=
  match old with
  | EmptyString => intersperse new s
  | String _ _ => replace_from old new 0 s
  end.

(** Character-wise substitution: what [replace] amounts to when [old] is
    one character long. *)
Fixpoint subst_char (c : ascii) (new s : string) : string :=
  match s with
  | EmptyString => EmptyString
  | String a s' =>
      (if decide (a = c) then new else String a "") +:+ subst_char c new s'
  end.

Fixpoint count_char (c : ascii) (s : string) : nat :=
  match s with
  | EmptyString => 0
  | String a s' => (if decide (a = c) then 1 else 0) + count_char c s'
  end.

Fixpoint all_chars (p : ascii → bool) (s : string) : bool :=
  match s with
  | EmptyString => true
  | String a s' => p a && all_chars p s'
  end.

(** [s.endswith("\n")] *)
Fixpoint ends_with_newline (s : string) : bool :=
  match s with
  | EmptyString => false
  | String a EmptyString => if decide (a = "010"%char) then true else false
  | String _ s' => ends_with_newline s'
  end.

(** [sub in s] *)
Definition contains (sub s : string) : Prop :=
  ∃ pre post, s = pre +:+ sub +:+ post.

End PyStr.

(** ** Python values *)

(** The values that flow through the resource layer: URI parameters are
    strings, producers return arbitrary data, and the request context is
    a live object known only by its identity. *)
Inductive pyval : Type :=
| VNone
| VBool (b : bool)
| VInt (z : Z)
| VStr (s : string)
| VBytes (bs : list ascii)
| VObject (id : positive).

#[global] Instance pyval_eq_dec : EqDecision pyval.
Proof. solve_decision. Defined.

(** ** The fragment of [re] used by [matches] *)

(** Patterns are parsed by a character-driven machine and run by a
    backtracking matcher with the semantics of CPython's [re] in its
    default mode (no flags).  The fragment covers literals, [.], [^], [$],
    character sets of plain characters, the greedy quantifiers [*], [+],
    [?], alternation, plain groups and named groups [(?P<name>...)].
    Anything else is reported as [Unmodelled] rather than guessed. *)
Module Re.

Definition newline : ascii := "010"%char.

Inductive regex : Type :=
| REmpty
| RLit (c : ascii)
| RAny
| RSet (neg : bool) (cs : list ascii)
| RBol
| REol
| RSeq (r1 r2 : regex)
| RAlt (r1 r2 : regex)
| RStar (r : regex)
| RPlus (r : regex)
| ROpt (r : regex)
| RGroup (name : option string) (r : regex).

(** The ways in which compiling a pattern raises [re.error]. *)
Inductive error : Type :=
| MissingParen        (* missing ), unterminated subpattern *)
| UnbalancedParen     (* unbalanced parenthesis *)
| NothingToRepeat     (* nothing to repeat *)
| MissingGroupName    (* missing group name *)
| BadGroupName        (* bad character in group name *)
| RedefinedGroup      (* redefinition of group name *)
| UnterminatedName    (* missing >, unterminated name *)
| UnterminatedSet     (* unterminated character set *)
| UnexpectedEnd.      (* unexpected end of pattern *)

Inductive parse_result : Type :=
| Parsed (r : regex) (names : list string)
| Invalid (e : error)
| ParseUnmodelled.

Fixpoint nullable (r : regex) : bool :=
  match r with
  | REmpty | RBol | REol | RStar _ | ROpt _ => true
  | RLit _ | RAny | RSet _ _ => false
  | RSeq a b => nullable a && nullable b
  | RAlt a b => nullable a || nullable b
  | RPlus a => nullable a
  | RGroup _ a => nullable a
  end.

(** *** Parsing *)

(** A frame is an open (sub)pattern: the branches closed by [|] so far
    and the items of the current branch, both most recent first. *)
Record frame : Type := Frame {
  fr_name : option string;
  fr_alts : list regex;
  fr_seq : list regex
}.

Inductive mode : Type :=
| MNormal
| MOpen                              (* after "("      *)
| MQuery                             (* after "(?"     *)
| MP                                 (* after "(?P"    *)
| MName (acc : string)               (* after "(?P<"   *)
| MSetStart                          (* after "["      *)
| MSet (neg : bool) (acc : list ascii).

Record pstate : Type := PState {
  ps_cur : frame;
  ps_stack : list frame;
  ps_names : list string;
  ps_mode : mode
}.

Definition rseq (items : list regex) : regex := foldr RSeq REmpty items.

Fixpoint ralt (branches : list regex) : regex :=
  match branches with
  | [] => REmpty
  | [b] => b
  | b :: bs => RAlt b (ralt bs)
  end.

Definition frame_body (f : frame) : regex :=
  ralt (rev (rseq (rev (fr_seq f)) :: fr_alts f)).

Definition push_item (r : regex) (st : pstate) : pstate :=
  let f := ps_cur st in
  PState (Frame (fr_name f) (fr_alts f) (r :: fr_seq f))
         (ps_stack st) (ps_names st) MNormal.

Definition open_group (name : option string) (st : pstate) : pstate :=
  PState (Frame name [] []) (ps_cur st :: ps_stack st)
         (match name with Some n => n :: ps_names st | None => ps_names st end)
         MNormal.

Definition with_mode (m : mode) (st : pstate) : pstate :=
  PState (ps_cur st) (ps_stack st) (ps_names st) m.

Definition is_alpha (c : ascii) : bool :=
  let n := nat_of_ascii c in
  ((65 <=? n) && (n <=? 90)) || ((97 <=? n) && (n <=? 122)).

Definition is_digit (c : ascii) : bool :=
  let n := nat_of_ascii c in (48 <=? n) && (n <=? 57).

Definition is_ident_start (c : ascii) : bool :=
  is_alpha c || bool_decide (c = "_"%char).

Definition is_ident_char (c : ascii) : bool :=
  is_ident_start c || is_digit c.

Definition is_ascii (c : ascii) : bool := nat_of_ascii c <? 128.

(** [str.isidentifier] on names made of characters below 128. *)
Definition is_identifier (s : string) : bool :=
  match s with
  | EmptyString => false
  | String c s' => is_ident_start c && PyStr.all_chars is_ident_char s'
  end.

Inductive quantifier : Type := QStar | QPlus | QOpt.

Definition apply_quantifier (q : quantifier) (r : regex) : regex :=
  match q with QStar => RStar r | QPlus => RPlus r | QOpt => ROpt r end.

Definition quantify (q : quantifier) (st : pstate) : pstate + parse_result :=
  match fr_seq (ps_cur st) with
  | [] => inr (Invalid NothingToRepeat)
  | a :: rest =>
      match a with
      | RBol | REol => inr (Invalid NothingToRepeat)
      | RStar _ | RPlus _ | ROpt _ => inr ParseUnmodelled
      | _ =>
          if (match q with QOpt => false | _ => nullable a end)
          then inr ParseUnmodelled
          else
            let f := ps_cur st in
            inl (PState (Frame (fr_name f) (fr_alts f) (apply_quantifier q a :: rest))
                        (ps_stack st) (ps_names st) MNormal)
      end
  end.

Definition step_normal (st : pstate) (c : ascii) : pstate + parse_result :=
  if decide (c = "("%char) then inl (with_mode MOpen st)
  else if decide (c = ")"%char) then
    match ps_stack st with
    | [] => inr (Invalid UnbalancedParen)
    | parent :: stack =>
        let g := RGroup (fr_name (ps_cur st)) (frame_body (ps_cur st)) in
        inl (PState (Frame (fr_name parent) (fr_alts parent) (g :: fr_seq parent))
                    stack (ps_names st) MNormal)
    end
  else if decide (c = "|"%char) then
    let f := ps_cur st in
    inl (PState (Frame (fr_name f) (rseq (rev (fr_seq f)) :: fr_alts f) [])
                (ps_stack st) (ps_names st) MNormal)
  else if decide (c = "["%char) then inl (with_mode MSetStart st)
  else if decide (c = "."%char) then inl (push_item RAny st)
  else if decide (c = "^"%char) then inl (push_item RBol st)
  else if decide (c = "$"%char) then inl (push_item REol st)
  else if decide (c = "*"%char) then quantify QStar st
  else if decide (c = "+"%char) then quantify QPlus st
  else if decide (c = "?"%char) then quantify QOpt st
  else if decide (c = "\"%char) then inr ParseUnmodelled
  else if decide (c = "{"%char) then inr ParseUnmodelled
  else inl (push_item (RLit c) st).

Definition set_item (neg : bool) (acc : list ascii) (st : pstate) (c : ascii)
  : pstate + parse_result :=
  if decide (c = "]"%char) then
    match acc with
    | [] => inr ParseUnmodelled
    | _ :: _ => inl (push_item (RSet neg (rev acc)) st)
    end
  else if decide (c = "\"%char) then inr ParseUnmodelled
  else if decide (c = "-"%char) then inr ParseUnmodelled
  else if decide (c = "["%char) then inr ParseUnmodelled
  else inl (with_mode (MSet neg (c :: acc)) st).

Definition close_name (name : string) (st : pstate) : pstate + parse_result :=
  match name with
  | EmptyString => inr (Invalid MissingGroupName)
  | String _ _ =>
      if negb (PyStr.all_chars is_ascii name) then inr ParseUnmodelled
      else if negb (is_identifier name) then inr (Invalid BadGroupName)
      else if bool_decide (name ∈ ps_names st) then inr (Invalid RedefinedGroup)
      else inl (open_group (Some name) st)
  end.

Definition step (st : pstate) (c : ascii) : pstate + parse_result :=
  match ps_mode st with
  | MNormal => step_normal st c
  | MOpen =>
      if decide (c = "?"%char) then inl (with_mode MQuery st)
      else step_normal (open_group None st) c
  | MQuery =>
      if decide (c = "P"%char) then inl (with_mode MP st) else inr ParseUnmodelled
  | MP =>
      if decide (c = "<"%char) then inl (with_mode (MName "") st)
      else inr ParseUnmodelled
  | MName acc =>
      if decide (c = ">"%char) then close_name acc st
      else inl (with_mode (MName (acc +:+ String c "")) st)
  | MSetStart =>
      if decide (c = "^"%char) then inl (with_mode (MSet true []) st)
      else set_item false [] st c
  | MSet neg acc => set_item neg acc st c
  end.

Definition finish (st : pstate) : parse_result :=
  match ps_mode st with
  | MNormal =>
      match ps_stack st with
      | [] => Parsed (frame_body (ps_cur st)) (rev (ps_names st))
      | _ :: _ => Invalid MissingParen
      end
  | MOpen => Invalid MissingParen
  | MQuery | MP => Invalid UnexpectedEnd
  | MName _ => Invalid UnterminatedName
  | MSetStart | MSet _ _ => Invalid UnterminatedSet
  end.

Fixpoint parse_loop (st : pstate) (s : string) : parse_result :=
  match s with
  | EmptyString => finish st
  | String c s' =>
      match step st c with
      | inl st' => parse_loop st' s'
      | inr res => res
      end
  end.

Definition initial : pstate := PState (Frame None [] []) [] [] MNormal.

(** [re.compile(pattern)] *)
Definition compile (pattern : string) : parse_result := parse_loop initial pattern.

(** *** Matching *)

(** A match object: where the match ends, the text captured by each
    named group that took part, and the names the pattern defines. *)
Record match_obj : Type := MatchObj {
  m_end : nat;
  m_captures : gmap string string;
  m_names : list string
}.

Definition cont : Type := nat → string → gmap string string → option (nat * gmap string string).

Definition in_set (neg : bool) (cs : list ascii) (c : ascii) : bool :=
  xorb neg (bool_decide (c ∈ cs)).

Definition or_else {A} (x y : option A) : option A :=
  match x with Some a => Some a | None => y end.

(** Greedy repetition: try one more round of [body] first, and settle
    for what follows only when that fails.  A round must consume input;
    [fuel] bounds the rounds by the characters left. *)
Fixpoint star_loop (body : nat → string → gmap string string → cont → option (nat * gmap string string))
    (k : cont) (fuel : nat) (pos : nat) (s : string) (g : gmap string string)
  : option (nat * gmap string string) :=
  match fuel with
  | O => k pos s g
  | S fuel' =>
      or_else
        (body pos s g (λ pos' s' g',
           if decide (pos' = pos) then None else star_loop body k fuel' pos' s' g'))
        (k pos s g)
  end.

Fixpoint run (r : regex) (pos : nat) (s : string) (g : gmap string string) (k : cont)
  : option (nat * gmap string string) :=
  match r with
  | REmpty => k pos s g
  | RLit c =>
      match s with
      | String a s' => if decide (a = c) then k (S pos) s' g else None
      | EmptyString => None
      end
  | RAny =>
      match s with
      | String a s' => if decide (a = newline) then None else k (S pos) s' g
      | EmptyString => None
      end
  | RSet neg cs =>
      match s with
      | String a s' => if in_set neg cs a then k (S pos) s' g else None
      | EmptyString => None
      end
  | RBol => if decide (pos = 0) then k pos s g else None
  | REol =>
      match s with
      | EmptyString => k pos s g
      | String a EmptyString => if decide (a = newline) then k pos s g else None
      | String _ (String _ _) => None
      end
  | RSeq a b => run a pos s g (λ pos' s' g', run b pos' s' g' k)
  | RAlt a b => or_else (run a pos s g k) (run b pos s g k)
  | RStar a => star_loop (run a) k (String.length s) pos s g
  | RPlus a =>
      run a pos s g (λ pos' s' g', star_loop (run a) k (String.length s') pos' s' g')
  | ROpt a => or_else (run a pos s g k) (k pos s g)
  | RGroup name a =>
      run a pos s g (λ pos' s' g',
        k pos' s' (match name with
                   | Some n => <[n := String.substring 0 (pos' - pos) s]> g'
                   | None => g'
                   end))
  end.

Definition accept : cont := λ pos _ g, Some (pos, g).

Inductive result : Type :=
| Match (m : match_obj)
| NoMatch
| Error (e : error)
| Unmodelled.

(** [re.match(pattern, string)]: compile, then match at the start of
    [string]; the match need not reach its end. *)
Definition re_match (pattern : string) (s : string) : result :=
  match compile pattern with
  | Parsed r names =>
      match run r 0 s ∅ accept with
      | Some (e, g) => Match (MatchObj e g names)
      | None => NoMatch
      end
  | Invalid e => Error e
  | ParseUnmodelled => Unmodelled
  end.

(** [m.groupdict()]: every named group of the pattern, with [None] for
    a group that took no part in the match. *)
Definition groupdict (m : match_obj) : gmap string pyval :=
  list_to_map
    (map (λ n, (n, match m_captures m !! n with
                   | Some s => VStr s
                   | None => VNone
                   end))
         (m_names m)).

End Re.


(** ** Exceptions *)

(** One entry of a pydantic [ValidationError]: the kind of failure
    reported for a field. *)
Inductive error_detail : Type :=
| Missing                               (* the field is required *)
| UrlParsing (reason : string)          (* the input is not a URL *)
| ValueErrorDetail (msg : string)       (* a validator raised ValueError(msg) *)
| StringPatternMismatch (pattern : string)
| OtherDetail (kind msg : string).

Inductive exn : Type :=
| ValueError (msg : string)
| PydanticValidationError (title : string) (errors : list (string * error_detail))
| StopIteration (msg : string)          (* StopIteration and the classes derived
                                           from it *)
| OtherException (cls msg : string)     (* any other class derived from Exception *)
| BaseExceptionOnly (cls msg : string). (* KeyboardInterrupt, SystemExit,
                                           asyncio.CancelledError, ... *)

(** [isinstance(e, Exception)] *)
Definition is_Exception (e : exn) : bool :=
  match e with
  | BaseExceptionOnly _ _ => false
  | _ => true
  end.

(** [isinstance(e, StopIteration)] *)
Definition is_StopIteration (e : exn) : bool :=
  match e with
  | StopIteration _ => true
  | _ => false
  end.

(** The result of a call that touches no state: a value, an exception of
    type [E], or a pattern outside the modelled fragment of [re]. *)
Inductive outcome (E A : Type) : Type :=
| Returns (a : A)
| Raises (e : E)
| Unmodelled.
Arguments Returns {E A} a.
Arguments Raises {E A} e.
Arguments Unmodelled {E A}.

(** ** Function signatures *)

(** What the resource layer sees of a parameter annotation: whether it is
    the [Context] class (the marker of the injected context), or any
    other type. *)
Inductive annotation : Type :=
| AContext
| AType (type_name : string).

#[global] Instance annotation_eq_dec : EqDecision annotation.
Proof. solve_decision. Defined.

Record param : Type := Param {
  p_name : string;
  p_annotation : annotation;
  p_required : bool
}.

(** ** External collaborators *)

(** The pieces the resource layer consumes through an interface only:
    the world producers act on, the [mcp.types] records carried along
    untouched, pydantic's URL type, the rendering of a validation error
    as text, and the validation of raw arguments against an argument
    model. *)
Class Externals : Type := {
  World : Type;
  Icon : Type;
  Annotations : Type;
  AnyUrl : Type;
  (** validation of a string as [AnyUrl] with [host_required=False]:
      the URL, or why the string is not one *)
  url_validate : string → string + AnyUrl;
  (** [str(url)] *)
  url_str : AnyUrl → string;
  (** [str(e)] for a pydantic [ValidationError] *)
  render_validation_error : string → list (string * error_detail) → string;
  (** [arg_model.model_validate(pre_parse_json(raw))], dumped one level *)
  model_validate :
    list param → gmap string pyval → list (string * error_detail) + gmap string pyval
}.

(** ** Effects *)

Module Py.
Section Py.
Context `{Externals}.

(** What an observer of the resource layer can see happen: a raw
    mapping submitted to validation, and an invocation of a producer
    with its keyword arguments. *)
Inductive event : Type :=
| EValidate (raw : gmap string pyval)
| EInvoke (producer : string) (kwargs : gmap string pyval).

Record state : Type := State {
  world : World;
  trace : list event
}.

(** A computation may raise and may change the state. *)
Definition M (A : Type) : Type := state → (exn + A) * state.

Definition ret {A} (a : A) : M A := λ σ, (inr a, σ).

Definition raise {A} (e : exn) : M A := λ σ, (inl e, σ).

Definition bind {A B} (m : M A) (f : A → M B) : M B :=
  λ σ, match m σ with
       | (inr a, σ') => f a σ'
       | (inl e, σ') => (inl e, σ')
       end.

Definition lift {A} (r : exn + A) : M A := λ σ, (r, σ).

Definition log (ev : event) : M unit :=
  λ σ, (inr tt, State (world σ) (trace σ ++ [ev])).

(** [try: body  except Exception as e: handler(e)] *)
Definition try_except {A} (body : M A) (handler : exn → M A) : M A :=
  λ σ, match body σ with
       | (inl e, σ') => if is_Exception e then handler e σ' else (inl e, σ')
       | (inr a, σ') => (inr a, σ')
       end.

(** What an exception is once it has left the frame of a coroutine (the
    body of an [async def]): a [StopIteration] is replaced by
    [RuntimeError("coroutine raised StopIteration")], every other
    exception leaves as it is. *)
Definition leave_coroutine (e : exn) : exn :=
  if is_StopIteration e
  then OtherException "RuntimeError" "coroutine raised StopIteration"
  else e.

(** The body of an [async def], run to completion. *)
Definition coroutine {A} (body : M A) : M A :=
  λ σ, match body σ with
       | (inl e, σ') => (inl (leave_coroutine e), σ')
       | (inr a, σ') => (inr a, σ')
       end.

(** [await m].  Within one [create_resource] call nothing else runs, so
    awaiting a coroutine runs it to completion. *)
Definition await {A} (m : M A) : M A := m.

(** [str(e)] *)
Definition exn_str (e : exn) : string :=
  match e with
  | ValueError msg => msg
  | PydanticValidationError title errors => render_validation_error title errors
  | StopIteration msg => msg
  | OtherException _ msg => msg
  | BaseExceptionOnly _ msg => msg
  end.

(** How many times producers were invoked along a trace. *)
Fixpoint invocations (tr : list event) : nat :=
  match tr with
  | [] => 0
  | EInvoke _ _ :: tr' => S (invocations tr')
  | EValidate _ :: tr' => invocations tr'
  end.

End Py.
End Py.

#[global] Instance py_ret `{Externals} : MRet Py.M := @Py.ret _.
#[global] Instance py_bind `{Externals} : MBind Py.M := λ A B f m, Py.bind m f.

(** A Python function as the resource layer uses it: its [__name__] and
    [__doc__], its parameters, whether it was declared [async def], and
    what calling it with keyword arguments does. *)
Record pyfunc `{Externals} : Type := PyFunc {
  fn_name : string;
  fn_doc : option string;
  fn_params : list param;
  fn_is_coroutine : bool;
  fn_body : gmap string pyval → World → (exn + pyval) * World
}.

(** [x or y] on optional strings: [x] unless it is [None] or empty. *)
Definition truthy (x : option string) : bool :=
  match x with
  | Some (String _ _) => true
  | _ => false
  end.

(** ** [Resource] (base.py) *)

Module Resource.
Section Resource.
Context `{Externals}.

Record t : Type := Make {
  uri : AnyUrl;
  name : option string;
  title : option string;
  description : option string;
  mime_type : string;
  icons : option (list Icon);
  annotations : option Annotations
}.

(** The keyword arguments given to the constructor; [None] stands for
    an argument that is left out. *)
Record args : Type := Args {
  a_uri : option string;
  a_name : option string;
  a_title : option string;
  a_description : option string;
  a_mime_type : option string;
  a_icons : option (list Icon);
  a_annotations : option Annotations
}.

Definition is_alnum (c : ascii) : bool := Re.is_alpha c || Re.is_digit c.

Definition is_subtype_char (c : ascii) : bool :=
  is_alnum c || bool_decide (c = "-"%char) || bool_decide (c = "+"%char)
  || bool_decide (c = "."%char).

Definition mime_type_pattern : string := "^[a-zA-Z0-9]+/[a-zA-Z0-9\-+.]+$".

(** Whether a string has the form demanded by [mime_type_pattern]: one
    or more alphanumerics, a slash, one or more characters of the
    subtype alphabet. *)
Fixpoint mime_type_ok_from (seen : bool) (s : string) : bool :=
  match s with
  | EmptyString => false
  | String c s' =>
      if decide (c = "/"%char)
      then seen && negb (bool_decide (s' = "")) && PyStr.all_chars is_subtype_char s'
      else is_alnum c && mime_type_ok_from true s'
  end.

Definition mime_type_ok (s : string) : bool := mime_type_ok_from false s.

(** What a field validator does: it returns the value to use, or raises
    [ValueError]. *)
Inductive validator_result : Type :=
| Return (value : string)
| RaiseValueError (msg : string).

(** The [before] validator of [name]: [data_uri] is
    [info.data.get("uri")], present once [uri] has been validated. *)
Definition set_default_name (name : option string) (data_uri : option AnyUrl)
  : validator_result :=
  match name with
  | Some (String c n) => Return (String c n)
  | _ =>
      match data_uri with
      | Some u => Return (url_str u)
      | None => RaiseValueError "Either name or uri must be provided"
      end
  end.

Definition validate_uri (a : args) : error_detail + AnyUrl :=
  match a_uri a with
  | None => inl Missing
  | Some s =>
      match url_validate s with
      | inl reason => inl (UrlParsing reason)
      | inr u => inr u
      end
  end.

Definition validate_name (a : args) (data_uri : option AnyUrl) : error_detail + string :=
  match set_default_name (a_name a) data_uri with
  | Return n => inr n
  | RaiseValueError msg => inl (ValueErrorDetail msg)
  end.

Definition validate_mime_type (a : args) : error_detail + string :=
  let m := default "text/plain" (a_mime_type a) in
  if mime_type_ok m then inr m else inl (StringPatternMismatch mime_type_pattern).

Definition field_errors {A} (field : string) (r : error_detail + A)
  : list (string * error_detail) :=
  match r with
  | inl d => [(field, d)]
  | inr _ => []
  end.

Definition validated {A} (r : error_detail + A) : option A :=
  match r with
  | inl _ => None
  | inr a => Some a
  end.

(** Validation of the constructor arguments, field by field in the
    order of declaration; the failures of all fields are collected. *)
Definition validate (a : args) : list (string * error_detail) + t :=
  let u := validate_uri a in
  let n := validate_name a (validated u) in
  let m := validate_mime_type a in
  match u, n, m with
  | inr u', inr n', inr m' =>
      inr (Make u' (Some n') (a_title a) (a_description a) m'
                (a_icons a) (a_annotations a))
  | _, _, _ =>
      inl (field_errors "uri" u ++ field_errors "name" n ++ field_errors "mime_type" m)
  end.

End Resource.
End Resource.

(** ** [FunctionResource] *)

Module FunctionResource.
Section FunctionResource.
Context `{Externals}.

(** Modelled from the spec: the function-backed variant of [Resource]
    (the class [FunctionResource], which [templates.py] imports from
    [resources/types.py]).  It is a [Resource] that carries a callable
    of no arguments. *)
Record t : Type := Make {
  base : Resource.t;
  fn : unit → Py.M pyval
}.

(** Modelled from the spec: construction of the function-backed
    variant validates the [Resource] fields and stores the callable;
    a failed validation raises pydantic's [ValidationError]. *)
Definition init (a : Resource.args) (f : unit → Py.M pyval) : exn + t :=
  match Resource.validate a with
  | inl errors => inl (PydanticValidationError "FunctionResource" errors)
  | inr r => inr (Make r f)
  end.

(** Modelled from the spec: [read] of the function-backed variant
    yields what the wrapped callable yields; the context argument is
    ignored and a failure of the callable is passed on. *)
Definition read (self : t) (context : pyval) : Py.M pyval := fn self tt.

(** [n] successive reads, with the values they returned. *)
Fixpoint read_many (n : nat) (self : t) (context : pyval) : Py.M (list pyval) :=
  match n with
  | O => mret []
  | S n' =>
      v ← read self context;
      vs ← read_many n' self context;
      mret (v :: vs)
  end.

End FunctionResource.
End FunctionResource.

(** ** The schema engine *)

Module FuncMetadata.
Section FuncMetadata.
Context `{Externals}.

(** Modelled from the spec: the metadata the schema engine keeps about
    a producer ([FuncMetadata] of [utilities/func_metadata.py]): the
    argument model, that is, the name of the model class, under which
    its validation errors are reported, and the parameters left after
    exclusion. *)
Record t : Type := Make {
  arg_model_name : string;
  arg_model : list param
}.

(** The JSON schema of an argument model, as far as it describes
    parameters: its ["properties"] and its ["required"] list. *)
Record json_schema : Type := Schema {
  properties : gmap string annotation;
  required : list string
}.

(** Modelled from the spec: [func_metadata(fn, skip_names)], "given a
    callable and a set of parameter names to exclude", describes "the
    remaining parameters". *)
Definition func_metadata (fn : pyfunc) (skip_names : list string) : t :=
  Make (fn_name fn +:+ "Arguments")
       (filter (λ p, p_name p ∉ skip_names) (fn_params fn)).

(** Modelled from the spec: [arg_model.model_json_schema()], the
    "JSON-Schema-shaped description of the remaining parameters". *)
Definition model_json_schema (m : list param) : json_schema :=
  Schema (list_to_map (map (λ p, (p_name p, p_annotation p)) m))
         (map p_name (filter (λ p, p_required p = true) m)).

(** Modelled from the spec: [find_context_parameter(fn)] picks "the
    one (if any) whose declared type matches the context capability
    marker". *)
Definition find_context_parameter (fn : pyfunc) : option string :=
  p_name <$> head (filter (λ p, p_annotation p = AContext) (fn_params fn)).

(** Running the body of a producer on keyword arguments; [fn_is_async]
    is taken to agree with the producer, as [from_function] sets it. *)
Definition invoke (fn : pyfunc) (kwargs : gmap string pyval) : Py.M pyval :=
  λ σ, let '(r, w) := fn_body fn kwargs (Py.world σ) in
       (r, Py.State w (Py.trace σ ++ [Py.EInvoke (fn_name fn) kwargs])).


(** Modelled from the spec: [call_fn_with_arg_validation], the
    operation that "validates/coerces the raw mapping against the
    schema and invokes the callable with the merged arguments,
    returning its result or failing with a validation error"; the
    side-channel mapping is merged over the validated arguments.  The
    operation is itself a coroutine, which [create_resource] awaits,
    and so is the call of an [async def] producer. *)
Definition call_fn_with_arg_validation (self : t) (fn : pyfunc) (fn_is_async : bool)
    (arguments_to_validate : gmap string pyval)
    (arguments_to_pass_directly : option (gmap string pyval)) : Py.M pyval :=
  Py.coroutine
    (_ ← Py.log (Py.EValidate arguments_to_validate);
     match model_validate (arg_model self) arguments_to_validate with
     | inl errors => Py.raise (PydanticValidationError (arg_model_name self) errors)
     | inr parsed =>
         let kwargs := default ∅ arguments_to_pass_directly ∪ parsed in
         if fn_is_async then Py.await (Py.coroutine (invoke fn kwargs))
         else invoke fn kwargs
     end).

End FuncMetadata.
End FuncMetadata.

(** ** [ResourceTemplate] (templates.py) *)

Module ResourceTemplate.
Section ResourceTemplate.
Context `{Externals}.

Record t : Type := Make {
  uri_template : string;
  name : string;
  title : option string;
  description : option string;
  mime_type : string;
  icons : option (list Icon);
  annotations : option Annotations;
  fn : pyfunc;
  parameters : FuncMetadata.json_schema;
  context_kwarg : option string;
  fn_metadata : FuncMetadata.t;
  is_async : bool
}.

(** [_is_async_callable(obj)] on a plain function: there is no
    [functools.partial] layer to strip, and the function is a
    coroutine function exactly when it was declared [async def]. *)
Definition _is_async_callable (obj : pyfunc) : bool := fn_is_coroutine obj.

(** [x or y] *)
Definition or_str (x : option string) (y : string) : string :=
  match x with
  | Some (String c s) => String c s
  | _ => y
  end.

Definition from_function (fn : pyfunc) (uri_template : string)
    (name title description mime_type : option string)
    (icons : option (list Icon)) (annotations : option Annotations)
    (context_kwarg : option string) : exn + t :=
  let func_name := or_str name (fn_name fn) in
  if decide (func_name = "<lambda>") then
    inl (ValueError "You must provide a name for lambda functions")
  else
    let context_kwarg :=
      match context_kwarg with
      | None => FuncMetadata.find_context_parameter fn
      | Some c => Some c
      end in
    let is_async := _is_async_callable fn in
    let func_arg_metadata :=
      FuncMetadata.func_metadata fn
        (match context_kwarg with Some c => [c] | None => [] end) in
    let parameters :=
      FuncMetadata.model_json_schema (FuncMetadata.arg_model func_arg_metadata) in
    inr (Make uri_template func_name title
              (Some (or_str description (or_str (fn_doc fn) "")))
              (or_str mime_type "text/plain")
              icons annotations fn parameters context_kwarg func_arg_metadata is_async).

(** The pattern [f"^{pattern}$"] that [matches] hands to [re.match]. *)
Definition anchored_pattern (self : t) : string :=
  let pattern :=
    PyStr.replace (PyStr.replace (uri_template self) "{" "(?P<") "}" ">[^/]+)" in
  "^" +:+ pattern +:+ "$".

Definition matches (self : t) (uri : string)
  : outcome Re.error (option (gmap string pyval)) :=
  match Re.re_match (anchored_pattern self) uri with
  | Re.Match m => Returns (Some (Re.groupdict m))
  | Re.NoMatch => Returns None
  | Re.Error e => Raises e
  | Re.Unmodelled => Unmodelled
  end.

(** The keyword arguments with which [create_resource] constructs the
    resource. *)
Definition resource_args (self : t) (uri : string) : Resource.args :=
  Resource.Args (Some uri) (Some (name self)) (title self) (description self)
                (Some (mime_type self)) (icons self) (annotations self).

(** The side-channel mapping [{self.context_kwarg: context}], or [None]. *)
Definition direct_arguments (self : t) (context : pyval) : option (gmap string pyval) :=
  match context_kwarg self with
  | Some c => Some {[ c := context ]}
  | None => None
  end.

Definition create_resource (self : t) (uri : string) (params : gmap string pyval)
    (context : pyval) : Py.M FunctionResource.t :=
  Py.coroutine
    (Py.try_except
       (result ← Py.await (FuncMetadata.call_fn_with_arg_validation
                             (fn_metadata self) (fn self) (is_async self) params
                             (direct_arguments self context));
        Py.lift
          (FunctionResource.init (resource_args self uri) (λ _, mret result)))
       (λ e, Py.raise
               (ValueError
                  ("Error creating resource from template: " +:+ Py.exn_str e)))).

End ResourceTemplate.
End ResourceTemplate.

(** ** URI templates made of literal text and placeholders *)

(** The templates for which [matches] is specified: text whose characters
    mean themselves in a pattern, interleaved with placeholders [{name}]
    whose names are identifiers, no name occurring twice. *)
Module Template.

Inductive item : Type :=
| Lit (c : ascii)
| Var (name : string).

(** The characters that [re] reads as syntax, and the two braces that
    [matches] rewrites. *)
Definition special : list ascii :=
  ["("; ")"; "|"; "["; "."; "^"; "$"; "*"; "+"; "?"; "\"; "{"; "}"]%char.

Definition plain_char (c : ascii) : bool := negb (bool_decide (c ∈ special)).

Definition item_text (i : item) : string :=
  match i with
  | Lit c => String c ""
  | Var n => "{" +:+ n +:+ "}"
  end.

(** The [uri_template] string that a list of items stands for. *)
Fixpoint text (items : list item) : string :=
  match items with
  | [] => ""
  | i :: items' => item_text i +:+ text items'
  end.

Fixpoint names (items : list item) : list string :=
  match items with
  | [] => []
  | Lit _ :: items' => names items'
  | Var n :: items' => n :: names items'
  end.

Definition item_ok (i : item) : bool :=
  match i with
  | Lit c => plain_char c
  | Var n => PyStr.all_chars Re.is_ascii n && Re.is_identifier n
  end.

Definition well_formed (items : list item) : bool :=
  forallb item_ok items && bool_decide (NoDup (names items)).

(** The items of a template without placeholders. *)
Fixpoint literal (s : string) : list item :=
  match s with
  | EmptyString => []
  | String c s' => Lit c :: literal s'
  end.

Definition item_pattern (i : item) : string :=
  match i with
  | Lit c => String c ""
  | Var n => "(?P<" +:+ n +:+ ">[^/]+)"
  end.

Fixpoint pattern (items : list item) : string :=
  match items with
  | [] => ""
  | i :: items' => item_pattern i +:+ pattern items'
  end.

Definition item_regex (i : item) : Re.regex :=
  match i with
  | Lit c => Re.RLit c
  | Var n => Re.RGroup (Some n) (Re.RSeq (Re.RPlus (Re.RSet true ["/"%char])) Re.REmpty)
  end.

(** The number of slashes among the literal characters. *)
Fixpoint slashes (items : list item) : nat :=
  match items with
  | [] => 0
  | Lit c :: items' => (if decide (c = "/"%char) then 1 else 0) + slashes items'
  | Var _ :: items' => slashes items'
  end.

End Template.

(** The error that [create_resource] raises in place of [e]. *)
Definition creation_error `{Externals} (e : exn) : exn :=
  ValueError ("Error creating resource from template: " +:+ Py.exn_str e).

(** [matches] found a match. *)
Definition succeeds {E A} (o : outcome E (option A)) : Prop :=
  ∃ d, o = Returns (Some d).

(** [instance items w]: the string [w] is the template with every
    placeholder replaced by one or more characters other than [/]. *)
Fixpoint instance (items : list Template.item) (w : string) : Prop :=
  match items with
  | [] => w = ""
  | Template.Lit c :: items' => ∃ w', w = String c w' ∧ instance items' w'
  | Template.Var _ :: items' =>
      ∃ v w', w = v +:+ w' ∧ v ≠ "" ∧ PyStr.count_char "/" v = 0 ∧ instance items' w'
  end.

(** What a successful run leaves in the captures: every placeholder is
    bound to a non-empty text without [/], nothing else is touched. *)
Definition bound (names : list string) (g g' : gmap string string) : Prop :=
  (∀ n, n ∈ names → ∃ v, g' !! n = Some v ∧ v ≠ "" ∧ PyStr.count_char "/" v = 0)
  ∧ (∀ n, n ∉ names → g' !! n = g !! n).

Definition trailer (s : string) : Prop := s = "" ∨ s = String Re.newline "".

(** The state reached from [st] once the pattern of [items] is read. *)
Definition after_items (items : list Template.item) (st : Re.pstate) : Re.pstate :=
  Re.PState
    (Re.Frame (Re.fr_name (Re.ps_cur st)) (Re.fr_alts (Re.ps_cur st))
              (rev (map Template.item_regex items) ++ Re.fr_seq (Re.ps_cur st)))
    (Re.ps_stack st)
    (rev (Template.names items) ++ Re.ps_names st)
    Re.MNormal.

(** ** A concrete setting *)

(** A small instance of the external collaborators, on which the
    definitions can be run: the world counts the requests producers
    have made, a URL is any string with a scheme separator, and argument
    validation demands the required parameters and drops unknown keys. *)
Module Demo.

Definition check_url (s : string) : string + string :=
  if 0 <? PyStr.count_char ":" s then inr s
  else inl "relative URL without a base".

Definition missing (model : list param) (raw : gmap string pyval) : list param :=
  filter (λ p, p_required p = true ∧ raw !! p_name p = None) model.

Definition check_arguments (model : list param) (raw : gmap string pyval)
  : list (string * error_detail) + gmap string pyval :=
  match missing model raw with
  | [] => inr (filter (λ kv, kv.1 ∈ map p_name model) raw)
  | ps => inl (map (λ p, (p_name p, Missing)) ps)
  end.

Definition render (title : string) (errors : list (string * error_detail)) : string :=
  "validation error for " +:+ title.

Definition externals : Externals := {|
  World := nat;
  Icon := unit;
  Annotations := unit;
  AnyUrl := string;
  url_validate := check_url;
  url_str := λ u, u;
  render_validation_error := render;
  model_validate := check_arguments
|}.

(** [def get_weather(city: str, ctx: Context) -> str], which makes one
    request and fails for an unknown city. *)
Definition get_weather : @pyfunc externals :=
  @PyFunc externals "get_weather" (Some "Current weather of a city.")
    [Param "city" (AType "str") true; Param "ctx" AContext true]
    false
    (λ kwargs (w : nat),
       match kwargs !! "city" with
       | Some (VStr "atlantis") =>
           (inl (OtherException "LookupError" "unknown city"), S w)
       | Some (VStr c) => (inr (VStr ("Weather for " +:+ c)), S w)
       | _ => (inl (OtherException "TypeError" "city must be a string"), w)
       end).

(** A producer that is interrupted: it raises [KeyboardInterrupt]. *)
Definition interrupted : @pyfunc externals :=
  @PyFunc externals "interrupted" None [Param "city" (AType "str") true] false
    (λ _ (w : nat), (inl (BaseExceptionOnly "KeyboardInterrupt" ""), w)).

(** [lambda city: city] *)
Definition anonymous : @pyfunc externals :=
  @PyFunc externals "<lambda>" None [Param "city" (AType "str") true] false
    (λ kwargs (w : nat), (inr (default VNone (kwargs !! "city")), w)).

(** The template that [from_function] builds for [get_weather], with
    the given [uri_template] and [name]. *)
Definition template (uri_template name : string) : @ResourceTemplate.t externals :=
  @ResourceTemplate.Make externals uri_template name None
    (Some "Current weather of a city.") "text/plain" None None get_weather
    (FuncMetadata.model_json_schema [Param "city" (AType "str") true])
    (Some "ctx")
    (FuncMetadata.Make "get_weatherArguments" [Param "city" (AType "str") true])
    false.

Definition weather : @ResourceTemplate.t externals :=
  template "weather://{city}/current" "get_weather".

Definition weather_items : list Template.item :=
  Template.literal "weather://" ++ [Template.Var "city"] ++ Template.literal "/current".

Definition start : @Py.state externals := @Py.State externals 0 [].

(** A template whose producer is [interrupted]. *)
Definition interrupted_template : @ResourceTemplate.t externals :=
  @ResourceTemplate.Make externals "weather://{city}/current" "interrupted" None
    (Some "") "text/plain" None None interrupted
    (FuncMetadata.model_json_schema [Param "city" (AType "str") true])
    None
    (FuncMetadata.Make "interruptedArguments" [Param "city" (AType "str") true])
    false.

Definition paris : string := "weather://paris/current".

Definition paris_params : gmap string pyval := {[ "city" := VStr "paris" ]}.

(** The request context: a live object, not data. *)
Definition ctx : pyval := VObject 1.

Definition paris_kwargs : gmap string pyval := {[ "ctx" := ctx ]} ∪ paris_params.

Definition paris_base : @Resource.t externals :=
  @Resource.Make externals paris (Some "get_weather") None
    (Some "Current weather of a city.") "text/plain" None None.

Definition paris_resource : @FunctionResource.t externals :=
  @FunctionResource.Make externals paris_base (λ _, mret (VStr "Weather for paris")).

Definition after_paris : @Py.state externals :=
  @Py.State externals 1
    [Py.EValidate paris_params; Py.EInvoke "get_weather" paris_kwargs].

End Demo.

(** ** Expanding a template *)

(** [expand items values]: the template with every placeholder replaced
    by the string that [values] holds for it; [None] when a placeholder
    has no string value. *)
Fixpoint expand (items : list Template.item) (values : gmap string pyval)
  : option string :=
  match items with
  | [] => Some ""
  | Template.Lit c :: items' => String c <$> expand items' values
  | Template.Var n :: items' =>
      match values !! n with
      | Some (VStr v) => String.append v <$> expand items' values
      | _ => None
      end
  end.

(** Every placeholder is the last item or is followed by a literal [/]. *)
Fixpoint separated (items : list Template.item) : bool :=
  match items with
  | [] => true
  | Template.Lit _ :: items' => separated items'
  | Template.Var _ :: items' =>
      match items' with
      | [] => true
      | Template.Lit c :: _ => bool_decide (c = "/"%char) && separated items'
      | Template.Var _ :: _ => false
      end
  end.

(** Values fit for placeholders: every placeholder has a non-empty
    string without [/], and nothing else is bound. *)
Definition segment_values (items : list Template.item) (values : gmap string pyval)
  : Prop :=
  (∀ n, n ∈ Template.names items →
     ∃ v, values !! n = Some (VStr v) ∧ v ≠ "" ∧ PyStr.count_char "/" v = 0)
  ∧ (∀ n, n ∉ Template.names items → values !! n = None).

(** Some placeholder of [items] bears a name that is in [seen] or that
    an earlier placeholder bears. *)
Fixpoint clash (seen : list string) (items : list Template.item) : bool :=
  match items with
  | [] => false
  | Template.Lit _ :: items' => clash seen items'
  | Template.Var n :: items' => bool_decide (n ∈ seen) || clash (n :: seen) items'
  end.

(** ** Callables *)

(** The objects that may be handed to [_is_async_callable]: a function,
    a [functools.partial] around another object, an instance of a class
    that defines [__call__], or something that cannot be called. *)
Module Callables.
Section Callables.
Context `{Externals}.

Inductive object : Type :=
| Function (f : pyfunc)
| Partial (func : object) (keywords : gmap string pyval)
    (* [functools.partial(func, **keywords)]: Python builds it for a
       callable [func] only *)
| Instance (call : pyfunc)
| NotCallable (value : pyval).

(** [inspect.iscoroutinefunction(obj)]: true for a function declared
    [async def], looking through [functools.partial]; an instance is
    not a coroutine function, whatever its [__call__]. *)
Fixpoint iscoroutinefunction (obj : object) : bool :=
  match obj with
  | Function f => fn_is_coroutine f
  | Partial func _ => iscoroutinefunction func
  | Instance _ => false
  | NotCallable _ => false
  end.

(** [callable(obj)] *)
Definition callable (obj : object) : bool :=
  match obj with
  | NotCallable _ => false
  | _ => true
  end.

(** [inspect.iscoroutinefunction(getattr(obj, "__call__", None))]: the
    [__call__] of an instance is its method; that of a function or of a
    [partial] is a built-in wrapper, which is no coroutine function. *)
Definition call_is_coroutinefunction (obj : object) : bool :=
  match obj with
  | Instance call => fn_is_coroutine call
  | _ => false
  end.

(** [while isinstance(obj, functools.partial): obj = obj.func] *)
Fixpoint unwrap (obj : object) : object :=
  match obj with
  | Partial func _ => unwrap func
  | _ => obj
  end.

Definition _is_async_callable (obj : object) : bool :=
  let obj := unwrap obj in
  iscoroutinefunction obj || (callable obj && call_is_coroutinefunction obj).

(** [n] layers of [functools.partial] around [obj]. *)
Fixpoint partials (keywords : list (gmap string pyval)) (obj : object) : object :=
  match keywords with
  | [] => obj
  | k :: keywords' => Partial (partials keywords' obj) k
  end.

End Callables.
End Callables.

(** ** The call inside [create_resource] *)

(** The validated call that [create_resource] makes. *)
Definition validated_call `{Externals} (t : ResourceTemplate.t)
    (params : gmap string pyval) (context : pyval) : Py.M pyval :=
  FuncMetadata.call_fn_with_arg_validation
    (ResourceTemplate.fn_metadata t) (ResourceTemplate.fn t)
    (ResourceTemplate.is_async t) params
    (ResourceTemplate.direct_arguments t context).

(** ** More of the concrete setting *)

(** The template that [from_function] builds for [get_weather] when it
    is given the MIME type [text/plain; charset=utf-8]. *)
Definition charset_template : @ResourceTemplate.t Demo.externals :=
  @ResourceTemplate.Make Demo.externals "weather://{city}/current" "get_weather" None
    (Some "Current weather of a city.") "text/plain; charset=utf-8" None None
    Demo.get_weather
    (FuncMetadata.model_json_schema [Param "city" (AType "str") true])
    (Some "ctx")
    (FuncMetadata.Make "get_weatherArguments" [Param "city" (AType "str") true])
    false.

(** A producer that has run out of cities: it raises [StopIteration]. *)
Definition exhausted : @pyfunc Demo.externals :=
  @PyFunc Demo.externals "exhausted" None [Param "city" (AType "str") true] false
    (λ _ (w : nat), (inl (StopIteration "exhausted"), w)).

(** The template that [from_function] builds for [exhausted]. *)
Definition exhausted_template : @ResourceTemplate.t Demo.externals :=
  @ResourceTemplate.Make Demo.externals "weather://{city}/current" "exhausted" None
    (Some "") "text/plain" None None exhausted
    (FuncMetadata.model_json_schema [Param "city" (AType "str") true])
    None
    (FuncMetadata.Make "exhaustedArguments" [Param "city" (AType "str") true])
    false.

(** A template that names [x] twice. *)
Definition pair_items : list Template.item :=
  Template.literal "pair://" ++ [Template.Var "x"; Template.Lit "/"; Template.Var "x"].

(** ** Strings: basic facts *)

Section StringFacts.

Lemma str_app_cons a (s t : string) : String a s +:+ t = String a (s +:+ t).
Proof. reflexivity. Qed.

Lemma str_app_nil_l (s : string) : "" +:+ s = s.
Proof. reflexivity. Qed.

Lemma str_app_nil_r (s : string) : s +:+ "" = s.
Proof. induction s as [|a s IH]; [done|]. by rewrite str_app_cons, IH. Qed.

Lemma str_app_assoc (s t u : string) : (s +:+ t) +:+ u = s +:+ (t +:+ u).
Proof. induction s as [|a s IH]; [done|]. by rewrite !str_app_cons, IH. Qed.

Lemma str_length_app (s t : string) :
  String.length (s +:+ t) = String.length s + String.length t.
Proof. induction s as [|a s IH]; [done|]. rewrite str_app_cons. simpl. by rewrite IH. Qed.

Lemma count_char_app c (s t : string) :
  PyStr.count_char c (s +:+ t) = PyStr.count_char c s + PyStr.count_char c t.
Proof.
  induction s as [|a s IH]; [done|]. rewrite str_app_cons. simpl. rewrite IH. lia.
Qed.

Lemma all_chars_app p (s t : string) :
  PyStr.all_chars p (s +:+ t) = PyStr.all_chars p s && PyStr.all_chars p t.
Proof.
  induction s as [|a s IH]; [done|]. rewrite str_app_cons. simpl.
  rewrite IH. by rewrite andb_assoc.
Qed.

Lemma ends_with_newline_cons a (s : string) :
  s ≠ "" → PyStr.ends_with_newline (String a s) = PyStr.ends_with_newline s.
Proof. by destruct s. Qed.

Lemma ends_with_newline_app (s t : string) :
  t ≠ "" → PyStr.ends_with_newline (s +:+ t) = PyStr.ends_with_newline t.
Proof.
  intros Ht. induction s as [|a s IH]; [done|].
  rewrite str_app_cons, ends_with_newline_cons; [done|]. by destruct s, t.
Qed.

End StringFacts.

(** ** [str.replace] of a single character *)

Section Replace.

Lemma replace_char s c new :
  PyStr.replace s (String c "") new = PyStr.subst_char c new s.
Proof.
  unfold PyStr.replace. induction s as [|a s IH]; [done|].
  simpl. destruct (decide (c = a)) as [->|Hne].
  - rewrite decide_True by done. by rewrite IH.
  - rewrite decide_False by done. by rewrite IH.
Qed.

Lemma subst_char_app c new (s t : string) :
  PyStr.subst_char c new (s +:+ t)
  = PyStr.subst_char c new s +:+ PyStr.subst_char c new t.
Proof.
  induction s as [|a s IH]; [done|].
  rewrite str_app_cons. simpl. by rewrite IH, str_app_assoc.
Qed.

Lemma subst_char_absent c new (s : string) :
  PyStr.count_char c s = 0 → PyStr.subst_char c new s = s.
Proof.
  induction s as [|a s IH]; [done|]. simpl.
  destruct (decide (a = c)); [done|]. intros Hs. by rewrite IH.
Qed.

End Replace.

(** ** From a template to its pattern *)

Section Translation.

Lemma all_chars_impl (p q : ascii → bool) (s : string) :
  (∀ c, p c = true → q c = true) →
  PyStr.all_chars p s = true → PyStr.all_chars q s = true.
Proof.
  intros Hpq. induction s as [|a s IH]; [done|]. simpl.
  intros [Ha Hs]%andb_true_iff. rewrite (Hpq _ Ha). by apply IH.
Qed.

Lemma all_chars_count_zero (p : ascii → bool) (c : ascii) (s : string) :
  p c = false → PyStr.all_chars p s = true → PyStr.count_char c s = 0.
Proof.
  intros Hc. induction s as [|a s IH]; [done|]. simpl.
  intros [Ha Hs]%andb_true_iff. rewrite (IH Hs).
  destruct (decide (a = c)) as [->|]; [congruence|done].
Qed.

Lemma identifier_chars (n : string) :
  Re.is_identifier n = true → PyStr.all_chars Re.is_ident_char n = true.
Proof.
  destruct n as [|a n]; [done|]. simpl.
  intros [Ha Hn]%andb_true_iff. rewrite Hn, andb_true_r.
  unfold Re.is_ident_char. by rewrite Ha.
Qed.

Lemma identifier_no_char (c : ascii) (n : string) :
  Re.is_ident_char c = false → Re.is_identifier n = true → PyStr.count_char c n = 0.
Proof.
  intros Hc Hn. eapply all_chars_count_zero; [exact Hc|]. by apply identifier_chars.
Qed.

Lemma plain_char_not_special (c : ascii) :
  Template.plain_char c = true → c ∉ Template.special.
Proof.
  unfold Template.plain_char. intros Hc%negb_true_iff. by apply bool_decide_eq_false in Hc.
Qed.

Lemma subst_item_open (i : Template.item) :
  Template.item_ok i = true →
  PyStr.subst_char "}" ">[^/]+)" (PyStr.subst_char "{" "(?P<" (Template.item_text i))
  = Template.item_pattern i.
Proof.
  destruct i as [c|n].
  - simpl. intros Hc%plain_char_not_special.
    destruct (decide (c = "{"%char)) as [->|]; [set_solver|].
    simpl. destruct (decide (c = "}"%char)) as [->|]; [set_solver|done].
  - unfold Template.item_ok, Template.item_text, Template.item_pattern.
    intros [_ Hn]%andb_true_iff.
    rewrite !subst_char_app.
    rewrite (subst_char_absent "{" _ n) by (by apply identifier_no_char).
    rewrite (subst_char_absent "}" _ n) by (by apply identifier_no_char).
    reflexivity.
Qed.

(** The two [replace] calls of [matches] turn the text of a well-formed
    template into the concatenation of its items' patterns. *)
Lemma translate_text (items : list Template.item) :
  forallb Template.item_ok items = true →
  PyStr.replace (PyStr.replace (Template.text items) "{" "(?P<") "}" ">[^/]+)"
  = Template.pattern items.
Proof.
  rewrite !replace_char. induction items as [|i items IH]; [done|].
  simpl. intros [Hi Hitems]%andb_true_iff.
  rewrite !subst_char_app, subst_item_open by done. by rewrite IH.
Qed.

End Translation.

(** ** Compiling the pattern of a template *)

Section Parsing.

Ltac parse_steps :=
  simpl Re.parse_loop;
  unfold Re.with_mode, Re.push_item, Re.open_group, Re.quantify, Re.frame_body;
  simpl.

Lemma parse_loop_cons st c s :
  Re.parse_loop st (String c s)
  = match Re.step st c with
    | inl st' => Re.parse_loop st' s
    | inr res => res
    end.
Proof. reflexivity. Qed.

Lemma step_plain cur stack names c :
  Template.plain_char c = true →
  Re.step (Re.PState cur stack names Re.MNormal) c
  = inl (Re.push_item (Re.RLit c) (Re.PState cur stack names Re.MNormal)).
Proof.
  intros Hc%plain_char_not_special. unfold Re.step, Re.step_normal. simpl.
  repeat (destruct (decide (c = _)) as [->|_];
          [exfalso; apply Hc; unfold Template.special; set_solver|]).
  done.
Qed.

Lemma close_name_mode (n : string) cur stack names m m' :
  Re.close_name n (Re.PState cur stack names m)
  = Re.close_name n (Re.PState cur stack names m').
Proof. by destruct n. Qed.

(** Reading a group name up to its closing [>]. *)
Lemma parse_name (n acc : string) cur stack names rest :
  PyStr.count_char ">" n = 0 →
  Re.parse_loop (Re.PState cur stack names (Re.MName acc)) (n +:+ String ">" rest)
  = match Re.close_name (acc +:+ n) (Re.PState cur stack names Re.MNormal) with
    | inl st' => Re.parse_loop st' rest
    | inr res => res
    end.
Proof.
  revert acc. induction n as [|a n IH]; intros acc Hn.
  - rewrite str_app_nil_l, str_app_nil_r, parse_loop_cons. unfold Re.step. simpl.
    by rewrite (close_name_mode acc _ _ _ _ Re.MNormal).
  - simpl in Hn. destruct (decide (a = ">"%char)) as [|Ha]; [done|].
    rewrite str_app_cons, parse_loop_cons. unfold Re.step. simpl.
    rewrite decide_False by done. unfold Re.with_mode. simpl.
    rewrite IH by done. by rewrite str_app_assoc.
Qed.

Lemma close_name_ok (n : string) cur stack names :
  PyStr.all_chars Re.is_ascii n = true →
  Re.is_identifier n = true →
  n ∉ names →
  Re.close_name n (Re.PState cur stack names Re.MNormal)
  = inl (Re.PState (Re.Frame (Some n) [] []) (cur :: stack) (n :: names) Re.MNormal).
Proof.
  intros Hascii Hid Hfresh. unfold Re.close_name.
  destruct n as [|a n]; [done|]. rewrite Hascii, Hid. simpl.
  by rewrite bool_decide_eq_false_2.
Qed.

Lemma parse_items (items : list Template.item) (st : Re.pstate) rest :
  Re.ps_mode st = Re.MNormal →
  forallb Template.item_ok items = true →
  NoDup (Template.names items) →
  (∀ n, n ∈ Template.names items → n ∉ Re.ps_names st) →
  Re.parse_loop st (Template.pattern items +:+ rest)
  = Re.parse_loop (after_items items st) rest.
Proof.
  revert st. induction items as [|i items IH]; intros st Hmode Hok Hnd Hfresh.
  - destruct st as [[? ? ?] ? ? ?]. simpl in Hmode. subst. reflexivity.
  - simpl in Hok. apply andb_true_iff in Hok as [Hi Hok].
    destruct st as [[fname alts sq] stack names mode]. simpl in Hmode. subst mode.
    destruct i as [c|n]; simpl Template.pattern; simpl in Hi.
    + rewrite str_app_assoc, str_app_cons, str_app_nil_l, parse_loop_cons, step_plain by done.
      rewrite IH; [|done..].
      unfold after_items. simpl. by rewrite <- (app_assoc _ [Re.RLit c]).
    + apply andb_true_iff in Hi as [Hascii Hid].
      simpl in Hnd. apply NoDup_cons in Hnd as [Hn Hnd].
      rewrite !str_app_assoc.
      change ("(?P<" +:+ n +:+ ">[^/]+)" +:+ Template.pattern items +:+ rest)
        with (String "(" (String "?" (String "P" (String "<"
               (n +:+ String ">" ("[^/]+)" +:+ Template.pattern items +:+ rest)))))).
      parse_steps.
      rewrite parse_name by (by apply identifier_no_char).
      rewrite str_app_nil_l, close_name_ok; [|done|done|].
      2:{ apply (Hfresh n). simpl. set_solver. }
      change ("[^/]+)" +:+ Template.pattern items +:+ rest)
        with (String "[" (String "^" (String "/" (String "]" (String "+" (String ")"
               (Template.pattern items +:+ rest))))))).
      parse_steps.
      rewrite IH; [|done..|].
      * unfold after_items. simpl.
        by rewrite <- (app_assoc _ [_] sq), <- (app_assoc _ [n] names).
      * intros m Hm. simpl. intros [->|Hin]%elem_of_cons; [done|].
        eapply Hfresh; [|exact Hin]. simpl. set_solver.
Qed.

(** Compiling the pattern built by [matches] for a well-formed template
    succeeds, and yields the items in sequence between the two anchors. *)
Lemma compile_template (items : list Template.item) :
  Template.well_formed items = true →
  Re.compile ("^" +:+ Template.pattern items +:+ "$")
  = Re.Parsed
      (Re.rseq (Re.RBol :: map Template.item_regex items ++ [Re.REol]))
      (Template.names items).
Proof.
  unfold Template.well_formed. intros [Hok Hnd%bool_decide_eq_true]%andb_true_iff.
  unfold Re.compile.
  change ("^" +:+ Template.pattern items +:+ "$")
    with (String "^" (Template.pattern items +:+ "$")).
  rewrite parse_loop_cons. simpl.
  rewrite parse_items; [|done..|].
  2:{ intros n _. simpl. set_solver. }
  unfold after_items. simpl.
  unfold Re.finish, Re.push_item, Re.frame_body. simpl.
  rewrite app_nil_r, !rev_app_distr, !rev_involutive. reflexivity.
Qed.

End Parsing.

(** ** Running the pattern of a template *)

Section Matching.

Abbreviation segment := (Re.RSet true ["/"%char]).

Lemma substring_prefix (w s : string) :
  String.substring 0 (String.length w) (w +:+ s) = w.
Proof.
  induction w as [|a w IH].
  - rewrite str_app_nil_l. by destruct s.
  - rewrite str_app_cons. simpl. by rewrite IH.
Qed.

Lemma star_loop_S body (K : Re.cont) fuel pos s g :
  Re.star_loop body K (S fuel) pos s g
  = Re.or_else
      (body pos s g (λ pos' s' g',
         if decide (pos' = pos) then None else Re.star_loop body K fuel pos' s' g'))
      (K pos s g).
Proof. reflexivity. Qed.

Lemma run_seq a b pos s g (K : Re.cont) :
  Re.run (Re.RSeq a b) pos s g K
  = Re.run a pos s g (λ pos' s' g', Re.run b pos' s' g' K).
Proof. reflexivity. Qed.

Lemma run_var_unfold n pos s g (K : Re.cont) :
  Re.run (Template.item_regex (Template.Var n)) pos s g K
  = Re.run segment pos s g (λ p1 s1 g1,
      Re.star_loop (Re.run segment)
        (λ p2 s2 g2, K p2 s2 (<[n := String.substring 0 (p2 - pos) s]> g2))
        (String.length s1) p1 s1 g1).
Proof. reflexivity. Qed.

Lemma not_slash_in_set (a : ascii) : a ≠ "/"%char → Re.in_set true ["/"%char] a = true.
Proof.
  intros Ha. unfold Re.in_set. rewrite bool_decide_eq_false_2; [done|].
  by intros ->%list_elem_of_singleton.
Qed.

Lemma slash_in_set : Re.in_set true ["/"%char] "/"%char = false.
Proof. reflexivity. Qed.

Lemma run_set_cons neg cs a s' pos g (K : Re.cont) :
  Re.run (Re.RSet neg cs) pos (String a s') g K
  = if Re.in_set neg cs a then K (S pos) s' g else None.
Proof. reflexivity. Qed.

Lemma run_segment_inv pos s g (K : Re.cont) res :
  Re.run segment pos s g K = Some res →
  ∃ a s', s = String a s' ∧ a ≠ "/"%char ∧ K (S pos) s' g = Some res.
Proof.
  destruct s as [|a s']; [done|]. rewrite run_set_cons.
  destruct (decide (a = "/"%char)) as [->|Ha].
  - by rewrite slash_in_set.
  - rewrite not_slash_in_set by done. eauto.
Qed.

Lemma run_segment a s' pos g (K : Re.cont) :
  a ≠ "/"%char → Re.run segment pos (String a s') g K = K (S pos) s' g.
Proof. intros Ha. by rewrite run_set_cons, not_slash_in_set. Qed.

(** Whatever the greedy loop over [[^/]] settles for, it has consumed a
    run of characters without [/]. *)
Lemma star_segment_inv fuel pos s g (K : Re.cont) res :
  Re.star_loop (Re.run segment) K fuel pos s g = Some res →
  ∃ w s', s = w +:+ s' ∧ PyStr.count_char "/" w = 0
          ∧ K (pos + String.length w) s' g = Some res.
Proof.
  revert pos s. induction fuel as [|fuel IH]; intros pos s.
  - intros HK. exists "", s. by rewrite Nat.add_0_r.
  - rewrite star_loop_S.
    match goal with |- Re.or_else ?x _ = _ → _ => destruct x as [r|] eqn:Hrun end.
    + intros [= ->]. apply run_segment_inv in Hrun as (a & s1 & -> & Ha & Hloop).
      destruct (decide (S pos = pos)); [done|].
      apply IH in Hloop as (w & s' & -> & Hw & HK).
      exists (String a w), s'. simpl. rewrite decide_False by done.
      split_and!; [done|done|]. by rewrite <- Nat.add_succ_comm.
    + intros HK. exists "", s. by rewrite Nat.add_0_r.
Qed.

(** The loop finds a way to go on whenever some split of the input lets
    the continuation succeed. *)
Lemma star_segment_complete (w : string) : ∀ fuel pos s' g (K : Re.cont),
  String.length w ≤ fuel →
  PyStr.count_char "/" w = 0 →
  is_Some (K (pos + String.length w) s' g) →
  is_Some (Re.star_loop (Re.run segment) K fuel pos (w +:+ s') g).
Proof.
  induction w as [|a w IH]; intros fuel pos s' g K Hfuel Hw HK.
  - simpl in HK. rewrite Nat.add_0_r in HK. rewrite str_app_nil_l.
    destruct fuel as [|fuel]; [done|]. rewrite star_loop_S.
    match goal with |- is_Some (Re.or_else ?x _) => by destruct x end.
  - simpl in Hfuel, Hw. destruct (decide (a = "/"%char)) as [|Ha]; [done|].
    destruct fuel as [|fuel]; [lia|]. rewrite star_loop_S.
    rewrite str_app_cons, run_segment by done.
    rewrite decide_False by lia.
    destruct (IH fuel (S pos) s' g K) as [r ->]; [lia|done| |done].
    simpl in HK. by rewrite <- Nat.add_succ_comm in HK.
Qed.

Lemma run_var_inv n pos s g (K : Re.cont) res :
  Re.run (Template.item_regex (Template.Var n)) pos s g K = Some res →
  ∃ v s', s = v +:+ s' ∧ v ≠ "" ∧ PyStr.count_char "/" v = 0
          ∧ K (pos + String.length v) s' (<[n := v]> g) = Some res.
Proof.
  rewrite run_var_unfold. intros (a & s1 & -> & Ha & Hloop)%run_segment_inv.
  apply star_segment_inv in Hloop as (w & s' & -> & Hw & HK).
  exists (String a w), s'. simpl. rewrite decide_False by done.
  split_and!; [done|done|done|].
  replace (S pos + String.length w - pos) with (S (String.length w)) in HK by lia.
  simpl in HK. rewrite substring_prefix in HK.
  by rewrite <- Nat.add_succ_comm.
Qed.

Lemma run_var_complete n pos (v s' : string) g (K : Re.cont) :
  v ≠ "" → PyStr.count_char "/" v = 0 →
  (∀ g', is_Some (K (pos + String.length v) s' g')) →
  is_Some (Re.run (Template.item_regex (Template.Var n)) pos (v +:+ s') g K).
Proof.
  intros Hv Hcount HK. destruct v as [|a w]; [done|].
  simpl in Hcount. destruct (decide (a = "/"%char)) as [|Ha]; [done|].
  rewrite run_var_unfold, str_app_cons, run_segment by done.
  apply star_segment_complete; [by rewrite str_length_app; lia|done|].
  simpl in HK. rewrite <- Nat.add_succ_comm in HK. apply HK.
Qed.

Section Items.
Variable tail : list Re.regex.

Lemma rseq_cons_items i (items : list Template.item) :
  Re.rseq (map Template.item_regex (i :: items) ++ tail)
  = Re.RSeq (Template.item_regex i) (Re.rseq (map Template.item_regex items ++ tail)).
Proof. reflexivity. Qed.

Lemma run_items_inv (items : list Template.item) : ∀ pos s g (K : Re.cont) res,
  Re.run (Re.rseq (map Template.item_regex items ++ tail)) pos s g K = Some res →
  ∃ w s' g', s = w +:+ s' ∧ instance items w ∧ bound (Template.names items) g g'
             ∧ Re.run (Re.rseq tail) (pos + String.length w) s' g' K = Some res.
Proof.
  induction items as [|[c|n] items IH]; intros pos s g K res Hrun.
  - exists "", s, g. rewrite Nat.add_0_r. split_and!; [done|done| |done].
    split; [intros n Hn; by apply elem_of_nil in Hn|done].
  - rewrite rseq_cons_items, run_seq in Hrun. simpl in Hrun.
    destruct s as [|a s1]; [done|].
    destruct (decide (a = c)) as [->|]; [|done].
    apply IH in Hrun as (w & s' & g' & -> & Hinst & Hbound & Hrun).
    exists (String c w), s', g'. simpl. rewrite <- Nat.add_succ_comm.
    split_and!; [done|by eauto|done|done].
  - rewrite rseq_cons_items, run_seq in Hrun.
    apply run_var_inv in Hrun as (v & s1 & -> & Hv & Hcount & Hrun).
    apply IH in Hrun as (w & s' & g' & -> & Hinst & [Hin Hout] & Hrun).
    exists (v +:+ w), s', g'. rewrite str_app_assoc, str_length_app, Nat.add_assoc.
    split_and!; [done|simpl; by eauto 10| |done].
    simpl. split.
    + intros m Hm. destruct (decide (m ∈ Template.names items)) as [|Hno]; [by auto|].
      apply elem_of_cons in Hm as [->|]; [|done].
      exists v. rewrite (Hout _ Hno), lookup_insert_eq. done.
    + intros m Hm. apply not_elem_of_cons in Hm as [Hne Hno].
      by rewrite (Hout _ Hno), lookup_insert_ne.
Qed.

Lemma run_items_complete (items : list Template.item) : ∀ w pos s' g (K : Re.cont),
  instance items w →
  (∀ g', is_Some (Re.run (Re.rseq tail) (pos + String.length w) s' g' K)) →
  is_Some (Re.run (Re.rseq (map Template.item_regex items ++ tail)) pos (w +:+ s') g K).
Proof.
  induction items as [|[c|n] items IH]; intros w pos s' g K Hinst HK.
  - simpl in Hinst. subst w. simpl in HK. rewrite Nat.add_0_r in HK. apply HK.
  - destruct Hinst as (w' & -> & Hinst).
    rewrite rseq_cons_items, run_seq, str_app_cons. simpl.
    rewrite decide_True by done.
    apply IH; [done|]. intros g'. simpl in HK. rewrite <- Nat.add_succ_comm in HK. apply HK.
  - destruct Hinst as (v & w' & -> & Hv & Hcount & Hinst).
    rewrite rseq_cons_items, run_seq, str_app_assoc.
    apply run_var_complete; [done|done|].
    intros g'. apply IH; [done|]. intros g''.
    rewrite str_length_app, Nat.add_assoc in HK. apply HK.
Qed.

End Items.

End Matching.

(** ** [matches] on well-formed templates *)

Section Anchored.

Lemma trailer_slashes s : trailer s → PyStr.count_char "/" s = 0.
Proof. by intros [->| ->]. Qed.

Lemma instance_slashes (items : list Template.item) : ∀ w,
  instance items w → PyStr.count_char "/" w = Template.slashes items.
Proof.
  induction items as [|[c|n] items IH]; intros w; simpl.
  - by intros ->.
  - intros (w' & -> & Hw'). simpl. by rewrite (IH _ Hw').
  - intros (v & w' & -> & _ & Hv & Hw'). by rewrite count_char_app, Hv, (IH _ Hw').
Qed.

Lemma instance_literal (s w : string) : instance (Template.literal s) w ↔ w = s.
Proof.
  revert w. induction s as [|c s IH]; intros w; simpl; [done|]. split.
  - intros (w' & -> & Hw'). f_equal. by apply IH.
  - intros ->. exists s. split; [done|]. by apply IH.
Qed.

Lemma text_literal (s : string) : Template.text (Template.literal s) = s.
Proof. induction s as [|c s IH]; [done|]. simpl. by rewrite IH. Qed.

Lemma names_literal (s : string) : Template.names (Template.literal s) = [].
Proof. by induction s. Qed.

Lemma well_formed_literal (s : string) :
  PyStr.all_chars Template.plain_char s = true →
  Template.well_formed (Template.literal s) = true.
Proof.
  intros Hs. unfold Template.well_formed. rewrite names_literal.
  rewrite andb_true_iff. split; [|apply bool_decide_eq_true_2; constructor].
  induction s as [|c s IH]; [done|]. simpl in *.
  apply andb_true_iff in Hs as [-> Hs]. by apply IH.
Qed.

Lemma trailer_newline (w s : string) :
  trailer s → PyStr.ends_with_newline (w +:+ s) = false → s = "".
Proof.
  intros [->| ->]; [done|]. by rewrite ends_with_newline_app.
Qed.

Abbreviation anchored items :=
  (Re.rseq (Re.RBol :: map Template.item_regex items ++ [Re.REol])).

Lemma run_eol_inv pos s g res :
  Re.run (Re.rseq [Re.REol]) pos s g Re.accept = Some res →
  trailer s ∧ res = (pos, g).
Proof.
  unfold trailer. destruct s as [|a [|b s]]; simpl.
  - intros [= <-]. auto.
  - destruct (decide (a = Re.newline)) as [->|]; [|done]. intros [= <-]. auto.
  - done.
Qed.

Lemma run_eol pos s g :
  trailer s → Re.run (Re.rseq [Re.REol]) pos s g Re.accept = Some (pos, g).
Proof. by intros [->| ->]. Qed.

(** A successful run of the anchored pattern splits the input into an
    instance of the template and a trailer. *)
Lemma run_anchored_inv (items : list Template.item) uri e g :
  Re.run (anchored items) 0 uri ∅ Re.accept = Some (e, g) →
  ∃ w s', uri = w +:+ s' ∧ trailer s' ∧ instance items w
          ∧ e = String.length w ∧ bound (Template.names items) ∅ g.
Proof.
  change (anchored items)
    with (Re.RSeq Re.RBol (Re.rseq (map Template.item_regex items ++ [Re.REol]))).
  rewrite run_seq. simpl Re.run at 1.
  intros (w & s' & g' & -> & Hinst & Hbound & Hrun)%run_items_inv.
  apply run_eol_inv in Hrun as [Htr [= -> ->]]. by eauto 10.
Qed.

Lemma run_anchored_complete (items : list Template.item) w s' :
  instance items w → trailer s' →
  is_Some (Re.run (anchored items) 0 (w +:+ s') ∅ Re.accept).
Proof.
  intros Hinst Htr.
  change (anchored items)
    with (Re.RSeq Re.RBol (Re.rseq (map Template.item_regex items ++ [Re.REol]))).
  rewrite run_seq. simpl Re.run at 1.
  apply run_items_complete; [done|]. intros g'. by rewrite run_eol.
Qed.

Lemma groupdict_lookup (f : string → pyval) (names : list string) (n : string) :
  n ∈ names →
  (list_to_map (map (λ n, (n, f n)) names) : gmap string pyval) !! n = Some (f n).
Proof.
  induction names as [|x names IH]; [by intros ?%elem_of_nil|].
  simpl. destruct (decide (x = n)) as [->|Hne].
  - by rewrite lookup_insert_eq.
  - intros [?|Hin]%elem_of_cons; [done|]. rewrite lookup_insert_ne by done. by apply IH.
Qed.

Context `{Externals}.

Lemma anchored_pattern_template (t : ResourceTemplate.t) (items : list Template.item) :
  ResourceTemplate.uri_template t = Template.text items →
  Template.well_formed items = true →
  Re.compile (ResourceTemplate.anchored_pattern t)
  = Re.Parsed (anchored items) (Template.names items).
Proof.
  intros Ht Hwf. unfold ResourceTemplate.anchored_pattern. rewrite Ht.
  rewrite translate_text; [by apply compile_template|].
  unfold Template.well_formed in Hwf. by apply andb_true_iff in Hwf as [? _].
Qed.

(** [re.match] on the pattern of a well-formed template is a run of the
    anchored sequence of its items. *)
Lemma re_match_template (t : ResourceTemplate.t) (items : list Template.item) uri :
  ResourceTemplate.uri_template t = Template.text items →
  Template.well_formed items = true →
  Re.re_match (ResourceTemplate.anchored_pattern t) uri
  = match Re.run (anchored items) 0 uri ∅ Re.accept with
    | Some (e, g) => Re.Match (Re.MatchObj e g (Template.names items))
    | None => Re.NoMatch
    end.
Proof.
  intros Ht Hwf. unfold Re.re_match.
  by rewrite (anchored_pattern_template t items Ht Hwf).
Qed.

(** [matches] finds a match exactly for an instance of the template,
    possibly followed by one newline; otherwise it returns [None]. *)
Lemma matches_template (t : ResourceTemplate.t) (items : list Template.item) uri :
  ResourceTemplate.uri_template t = Template.text items →
  Template.well_formed items = true →
  (succeeds (ResourceTemplate.matches t uri)
   ↔ ∃ w s', uri = w +:+ s' ∧ trailer s' ∧ instance items w)
  ∧ (¬ succeeds (ResourceTemplate.matches t uri)
     → ResourceTemplate.matches t uri = Returns None).
Proof.
  intros Ht Hwf. unfold ResourceTemplate.matches, succeeds.
  rewrite (re_match_template t items uri Ht Hwf).
  destruct (Re.run (anchored items) 0 uri ∅ Re.accept) as [[e g]|] eqn:Hrun.
  - split; [|intros []; by eauto]. split; [|by eauto].
    intros _. apply run_anchored_inv in Hrun as (w & s' & ? & ? & ? & _).
    by eauto.
  - split; [|done]. split; [by intros [d [=]]|].
    intros (w & s' & -> & Htr & Hinst).
    destruct (run_anchored_complete items w s' Hinst Htr) as [r Hr]. congruence.
Qed.

End Anchored.

(** ** Properties of [matches] *)

Section MatchesProperties.
Context `{Externals}.

Lemma groupdict_lookup_none (f : string → pyval) (names : list string) (n : string) :
  n ∉ names →
  (list_to_map (map (λ n, (n, f n)) names) : gmap string pyval) !! n = None.
Proof.
  induction names as [|x names IH]; [done|].
  intros [Hne Hno]%not_elem_of_cons. simpl.
  rewrite lookup_insert_ne by done. by apply IH.
Qed.

(** C4, as the code has it.  For a template made of plain literal text
    and placeholders with distinct identifier names: a URI that does not
    end in a newline is matched exactly when it is, as a whole, the
    template with each placeholder replaced by one or more non-slash
    characters, and the match then spans the whole URI; a match binds
    every placeholder, and only those, to a non-empty text without a
    slash; a URI that matches no longer matches once a further segment
    is appended to it; and a URI that is not matched yields [None]. *)
Theorem matches_anchored_full (t : ResourceTemplate.t)
    (items : list Template.item) (uri : string) :
  ResourceTemplate.uri_template t = Template.text items →
  Template.well_formed items = true →
  (PyStr.ends_with_newline uri = false →
     (succeeds (ResourceTemplate.matches t uri) ↔ instance items uri)
     ∧ ∀ m, Re.re_match (ResourceTemplate.anchored_pattern t) uri = Re.Match m →
            Re.m_end m = String.length uri)
  ∧ (∀ d, ResourceTemplate.matches t uri = Returns (Some d) →
       (∀ n, n ∈ Template.names items →
          ∃ v, d !! n = Some (VStr v) ∧ v ≠ "" ∧ PyStr.count_char "/" v = 0)
       ∧ (∀ n, n ∉ Template.names items → d !! n = None))
  ∧ (succeeds (ResourceTemplate.matches t uri) →
       ∀ seg, ResourceTemplate.matches t (uri +:+ "/" +:+ seg) = Returns None)
  ∧ (¬ succeeds (ResourceTemplate.matches t uri) →
       ResourceTemplate.matches t uri = Returns None).
Proof.
  intros Ht Hwf.
  destruct (matches_template t items uri Ht Hwf) as [Hiff Hnone].
  split_and!; [|intros d Hd|intros Hsucc seg|done].
  - intros Hnl. split.
    + rewrite Hiff. split.
      * intros (w & s' & -> & Htr & Hinst).
        rewrite (trailer_newline w s' Htr Hnl). by rewrite str_app_nil_r.
      * intros Hinst. exists uri, "". rewrite str_app_nil_r. by split_and!; [|left|].
    + intros m. rewrite (re_match_template t items uri Ht Hwf).
      destruct (Re.run _ 0 uri ∅ Re.accept) as [[e g]|] eqn:Hrun; [|done].
      intros [= <-]. simpl.
      apply run_anchored_inv in Hrun as (w & s' & -> & Htr & _ & -> & _).
      rewrite (trailer_newline w s' Htr Hnl). by rewrite str_app_nil_r.
  - unfold ResourceTemplate.matches in Hd.
    rewrite (re_match_template t items uri Ht Hwf) in Hd.
    destruct (Re.run _ 0 uri ∅ Re.accept) as [[e g]|] eqn:Hrun; [|done].
    injection Hd as <-. unfold Re.groupdict. simpl.
    apply run_anchored_inv in Hrun as (w & s' & _ & _ & _ & _ & [Hin Hout]).
    split.
    + intros n Hn. destruct (Hin n Hn) as (v & Hv & Hne & Hcount).
      exists v. rewrite groupdict_lookup by done. by rewrite Hv.
    + intros n Hn. by apply groupdict_lookup_none.
  - apply Hiff in Hsucc as (w & s' & -> & Htr & Hinst).
    destruct (matches_template t items ((w +:+ s') +:+ "/" +:+ seg) Ht Hwf)
      as [Hiff' Hnone'].
    apply Hnone'. rewrite Hiff'. intros (w2 & s2 & Heq & Htr2 & Hinst2).
    apply (f_equal (PyStr.count_char "/")) in Heq.
    rewrite !count_char_app in Heq.
    rewrite (instance_slashes _ _ Hinst), (instance_slashes _ _ Hinst2) in Heq.
    rewrite (trailer_slashes _ Htr), (trailer_slashes _ Htr2) in Heq.
    simpl in Heq. lia.
Qed.

(** C5.  For the template [weather://{city}/current], the URI
    [weather://paris/current] yields the mapping of [city] to [paris],
    and [weather://paris] yields [None]. *)
Theorem matches_weather_example (t : ResourceTemplate.t) :
  ResourceTemplate.uri_template t = "weather://{city}/current" →
  ResourceTemplate.matches t "weather://paris/current"
  = Returns (Some {[ "city" := VStr "paris" ]})
  ∧ ResourceTemplate.matches t "weather://paris" = Returns None.
Proof.
  intros Ht. unfold ResourceTemplate.matches, ResourceTemplate.anchored_pattern.
  rewrite Ht. split; by vm_compute.
Qed.

(** C6, as the code has it.  For a template of plain literal text (no
    placeholder, no character that [re] reads as syntax) and a URI that
    does not end in a newline: [matches] finds a match exactly when the
    URI equals the template, the match is the empty mapping, and any
    other URI yields [None]. *)
Theorem matches_literal_only (t : ResourceTemplate.t) (uri : string) :
  PyStr.all_chars Template.plain_char (ResourceTemplate.uri_template t) = true →
  PyStr.ends_with_newline uri = false →
  (succeeds (ResourceTemplate.matches t uri) ↔ uri = ResourceTemplate.uri_template t)
  ∧ (uri = ResourceTemplate.uri_template t →
       ResourceTemplate.matches t uri = Returns (Some ∅))
  ∧ (uri ≠ ResourceTemplate.uri_template t →
       ResourceTemplate.matches t uri = Returns None).
Proof.
  intros Hplain Hnl.
  set (items := Template.literal (ResourceTemplate.uri_template t)).
  assert (Ht : ResourceTemplate.uri_template t = Template.text items)
    by (symmetry; apply text_literal).
  assert (Hwf : Template.well_formed items = true) by (by apply well_formed_literal).
  destruct (matches_template t items uri Ht Hwf) as [Hiff Hnone].
  assert (Hchar : succeeds (ResourceTemplate.matches t uri)
                  ↔ uri = ResourceTemplate.uri_template t).
  { rewrite Hiff. split.
    - intros (w & s' & -> & Htr & Hinst%instance_literal).
      rewrite (trailer_newline w s' Htr Hnl). by rewrite str_app_nil_r.
    - intros ->. exists (ResourceTemplate.uri_template t), "".
      rewrite str_app_nil_r. split_and!; [done|by left|by apply instance_literal]. }
  split_and!; [done| |].
  - intros Heq. apply Hchar in Heq as [d Hd]. rewrite Hd.
    unfold ResourceTemplate.matches in Hd.
    rewrite (re_match_template t items uri Ht Hwf) in Hd.
    destruct (Re.run _ 0 uri ∅ Re.accept) as [[e g]|]; [|done].
    injection Hd as <-. unfold Re.groupdict. simpl.
    unfold items. by rewrite names_literal.
  - intros Hne. apply Hnone. by rewrite Hchar.
Qed.

End MatchesProperties.

(** The template of C5 in the concrete setting. *)
Lemma matches_weather_example_witness :
  ResourceTemplate.uri_template Demo.weather = "weather://{city}/current"
  ∧ ResourceTemplate.matches Demo.weather "weather://paris/current"
    = Returns (Some {[ "city" := VStr "paris" ]})
  ∧ ResourceTemplate.matches Demo.weather "weather://paris" = Returns None.
Proof.
  split; [reflexivity|].
  apply (@matches_weather_example Demo.externals Demo.weather). reflexivity.
Defined.

(** The templates of C4 and C6 in the concrete setting. *)
Lemma matches_anchored_full_witness :
  ResourceTemplate.uri_template Demo.weather = Template.text Demo.weather_items
  ∧ Template.well_formed Demo.weather_items = true
  ∧ PyStr.ends_with_newline "weather://paris/current" = false
  ∧ (succeeds (ResourceTemplate.matches Demo.weather "weather://paris/current")
     ↔ instance Demo.weather_items "weather://paris/current")
  ∧ (succeeds (ResourceTemplate.matches Demo.weather "weather://paris/current") →
     ∀ seg, ResourceTemplate.matches Demo.weather
              ("weather://paris/current" +:+ "/" +:+ seg) = Returns None).
Proof.
  split; [reflexivity|]. split; [reflexivity|]. split; [reflexivity|].
  destruct (@matches_anchored_full Demo.externals Demo.weather Demo.weather_items
              "weather://paris/current" eq_refl eq_refl) as (Hfull & _ & Hseg & _).
  split; [apply (Hfull eq_refl)|exact Hseg].
Defined.

(** C4 as stated fails: in a template, [.+] is read as a pattern, so a
    URI with a further segment appended is matched all the same. *)
Lemma matches_trailing_segment_counterexample :
  let t := Demo.template "docs://{page}/.+" "docs" in
  ResourceTemplate.matches t "docs://intro/a"
  = Returns (Some {[ "page" := VStr "intro" ]})
  ∧ ResourceTemplate.matches t ("docs://intro/a" +:+ "/" +:+ "b")
    = Returns (Some {[ "page" := VStr "intro" ]}).
Proof. split; by vm_compute. Qed.

Lemma matches_literal_only_witness :
  PyStr.all_chars Template.plain_char
    (ResourceTemplate.uri_template (Demo.template "config://app/settings" "settings"))
  = true
  ∧ PyStr.ends_with_newline "config://app/settings" = false
  ∧ ResourceTemplate.matches (Demo.template "config://app/settings" "settings")
      "config://app/settings" = Returns (Some ∅).
Proof.
  split; [reflexivity|]. split; [reflexivity|].
  destruct (@matches_literal_only Demo.externals
              (Demo.template "config://app/settings" "settings")
              "config://app/settings" eq_refl eq_refl) as (_ & Heq & _).
  apply Heq. reflexivity.
Defined.

(** C6 as stated fails: the template has no placeholder, yet it matches
    a URI that differs from it, because [.] stands for any character. *)
Lemma matches_literal_counterexample :
  let t := Demo.template "config://app.json" "config" in
  PyStr.count_char "{" (ResourceTemplate.uri_template t) = 0
  ∧ ResourceTemplate.matches t "config://appXjson" = Returns (Some ∅)
  ∧ "config://appXjson" ≠ ResourceTemplate.uri_template t.
Proof. split; [reflexivity|]. split; [by vm_compute|done]. Qed.

(** ** Corner cases of [matches] *)

(** [$] also matches before a newline that ends the string: the match
    stops short of the end of such a URI. *)
Example matches_before_final_newline :
  let uri := "weather://paris/current" +:+ String Re.newline "" in
  ResourceTemplate.matches Demo.weather uri
  = Returns (Some {[ "city" := VStr "paris" ]})
  ∧ ∃ m, Re.re_match (ResourceTemplate.anchored_pattern Demo.weather) uri = Re.Match m
         ∧ Re.m_end m = 23 ∧ String.length uri = 24.
Proof.
  split; [by vm_compute|]. eexists. split; [by vm_compute|]. done.
Qed.

(** A placeholder name used twice, and a brace without its partner,
    make [re.match] raise [re.error]. *)
Example matches_duplicate_placeholder :
  ResourceTemplate.matches (Demo.template "pair://{x}/{x}" "pair") "pair://a/b"
  = Raises Re.RedefinedGroup.
Proof. by vm_compute. Qed.

Example matches_unbalanced_brace :
  ResourceTemplate.matches (Demo.template "open://{x" "open") "open://a"
  = Raises Re.UnterminatedName
  ∧ ResourceTemplate.matches (Demo.template "close://x}" "close") "close://a"
    = Raises Re.UnbalancedParen.
Proof. split; by vm_compute. Qed.

(** ** [create_resource], step by step *)

Section CreateResource.
Context `{Externals}.

Lemma invocations_app (tr tr' : list Py.event) :
  Py.invocations (tr ++ tr') = Py.invocations tr + Py.invocations tr'.
Proof.
  induction tr as [|[raw|f kw] tr IH]; simpl; [done|done|]. by rewrite IH.
Qed.

Lemma leave_coroutine_idemp (e : exn) :
  Py.leave_coroutine (Py.leave_coroutine e) = Py.leave_coroutine e.
Proof. by destruct e. Qed.

Lemma leave_coroutine_other (e : exn) :
  is_StopIteration e = false → Py.leave_coroutine e = e.
Proof. unfold Py.leave_coroutine. by intros ->. Qed.

Lemma leave_coroutine_stop (e : exn) :
  is_StopIteration e = true →
  Py.leave_coroutine e = OtherException "RuntimeError" "coroutine raised StopIteration".
Proof. unfold Py.leave_coroutine. by intros ->. Qed.

Lemma leave_coroutine_is_Exception (e : exn) :
  is_Exception (Py.leave_coroutine e) = is_Exception e.
Proof. by destruct e. Qed.

Lemma leave_coroutine_not_stop (e : exn) :
  is_StopIteration (Py.leave_coroutine e) = false.
Proof. by destruct e. Qed.

(** The schema engine's call: the raw mapping is submitted to validation
    and, when it passes, the producer is invoked once on the validated
    arguments overlaid with the side-channel mapping; what the producer
    raises leaves the call as it leaves a coroutine. *)
Lemma call_fn_with_arg_validation_spec (md : FuncMetadata.t) (fn : pyfunc)
    (is_async : bool) (raw : gmap string pyval) (direct : option (gmap string pyval))
    (σ : Py.state) :
  FuncMetadata.call_fn_with_arg_validation md fn is_async raw direct σ
  = match model_validate (FuncMetadata.arg_model md) raw with
    | inl errors =>
        (inl (PydanticValidationError (FuncMetadata.arg_model_name md) errors),
         Py.State (Py.world σ) (Py.trace σ ++ [Py.EValidate raw]))
    | inr parsed =>
        let kwargs := default ∅ direct ∪ parsed in
        (sum_map Py.leave_coroutine id (fn_body fn kwargs (Py.world σ)).1,
         Py.State (fn_body fn kwargs (Py.world σ)).2
                  (Py.trace σ ++ [Py.EValidate raw; Py.EInvoke (fn_name fn) kwargs]))
    end.
Proof.
  unfold FuncMetadata.call_fn_with_arg_validation, Py.coroutine, mbind, py_bind,
    Py.bind, Py.log.
  destruct (model_validate _ raw) as [errors|parsed]; [done|].
  unfold Py.await, Py.coroutine, FuncMetadata.invoke.
  destruct is_async; simpl;
    destruct (fn_body fn _ (Py.world σ)) as [[e|v] w]; simpl;
    by rewrite <- ?app_assoc, ?leave_coroutine_idemp.
Qed.

(** The call never raises [StopIteration]. *)
Lemma call_fn_with_arg_validation_not_stop (md : FuncMetadata.t) (fn : pyfunc)
    (is_async : bool) (raw : gmap string pyval) (direct : option (gmap string pyval))
    (σ σ' : Py.state) (e : exn) :
  FuncMetadata.call_fn_with_arg_validation md fn is_async raw direct σ = (inl e, σ') →
  is_StopIteration e = false.
Proof.
  rewrite call_fn_with_arg_validation_spec.
  destruct (model_validate _ raw) as [errors|parsed]; [by intros [= <- _]|]. simpl.
  destruct (fn_body fn _ (Py.world σ)).1 as [e'|v]; [|done]. simpl.
  intros [= <- _]. apply leave_coroutine_not_stop.
Qed.

(** [create_resource] by cases on what the call and the construction of
    the resource do. *)
Lemma create_resource_spec (t : ResourceTemplate.t) (uri : string)
    (params : gmap string pyval) (context : pyval) (σ : Py.state) :
  ResourceTemplate.create_resource t uri params context σ
  = match FuncMetadata.call_fn_with_arg_validation
            (ResourceTemplate.fn_metadata t) (ResourceTemplate.fn t)
            (ResourceTemplate.is_async t) params
            (ResourceTemplate.direct_arguments t context) σ with
    | (inl e, σ') =>
        if is_Exception e then (inl (creation_error e), σ') else (inl e, σ')
    | (inr result, σ') =>
        match Resource.validate (ResourceTemplate.resource_args t uri) with
        | inl errors =>
            (inl (creation_error (PydanticValidationError "FunctionResource" errors)), σ')
        | inr base =>
            (inr (FunctionResource.Make base (λ _, mret result)), σ')
        end
    end.
Proof.
  unfold ResourceTemplate.create_resource, Py.coroutine, Py.try_except, Py.await,
    mbind, py_bind, Py.bind.
  destruct (FuncMetadata.call_fn_with_arg_validation _ _ _ _ _ σ) as [[e|result] σ']
    eqn:Hcall.
  - apply call_fn_with_arg_validation_not_stop in Hcall.
    destruct (is_Exception e); [done|]. by rewrite leave_coroutine_other.
  - unfold Py.lift, FunctionResource.init.
    by destruct (Resource.validate _) as [errors|base].
Qed.


Lemma read_many_constant (r : FunctionResource.t) (v : pyval) :
  (∀ context σ, FunctionResource.read r context σ = (inr v, σ)) →
  ∀ n context σ, FunctionResource.read_many n r context σ = (inr (replicate n v), σ).
Proof.
  intros Hread n context σ. induction n as [|n IH]; [done|].
  simpl. unfold mbind, py_bind, Py.bind. by rewrite Hread, IH.
Qed.

End CreateResource.

(** ** Properties of the resource layer *)

Section ResourceLayer.
Context `{Externals}.

Lemma schema_lookup_none (ps : list param) (k : string) :
  (∀ p, p ∈ ps → p_name p ≠ k) →
  (list_to_map (map (λ p, (p_name p, p_annotation p)) ps) : gmap string annotation) !! k
  = None.
Proof.
  induction ps as [|p ps IH]; intros Hps; [done|]. simpl.
  rewrite lookup_insert_ne by (apply Hps; left).
  apply IH. intros q Hq. apply Hps. by right.
Qed.

Lemma not_elem_of_names (ps : list param) (k : string) :
  (∀ p, p ∈ ps → p_name p ≠ k) → k ∉ map p_name ps.
Proof.
  induction ps as [|p ps IH]; intros Hps; [by intros ?%elem_of_nil|]. simpl.
  intros [->|Hin]%elem_of_cons.
  - by apply (Hps p); [left|].
  - revert Hin. apply IH. intros q Hq. apply Hps. by right.
Qed.

Lemma skipped_name (ps : list param) (k : string) (p : param) :
  p ∈ filter (λ p, p_name p ∉ [k]) ps → p_name p ≠ k.
Proof.
  intros [Hp _]%list_elem_of_filter Heq. apply Hp. rewrite Heq. left.
Qed.

Lemma schema_lookup_some (ps : list param) (q : param) :
  q ∈ ps →
  is_Some ((list_to_map (map (λ p, (p_name p, p_annotation p)) ps)
            : gmap string annotation) !! p_name q).
Proof.
  induction ps as [|p ps IH]; [by intros ?%elem_of_nil|]. simpl.
  intros Hq. destruct (decide (p_name p = p_name q)) as [->|Hne].
  - rewrite lookup_insert_eq. by eexists.
  - rewrite lookup_insert_ne by done. apply IH.
    apply elem_of_cons in Hq as [->|Hq]; done.
Qed.

(** The first parameter annotated with [Context] is the one that
    [find_context_parameter] picks. *)
Lemma find_context_parameter_first (fn : pyfunc) (before after : list param)
    (p : param) :
  fn_params fn = before ++ p :: after →
  p_annotation p = AContext →
  (∀ q, q ∈ before → p_annotation q ≠ AContext) →
  FuncMetadata.find_context_parameter fn = Some (p_name p).
Proof.
  unfold FuncMetadata.find_context_parameter. intros -> Hp Hbefore.
  induction before as [|q before IH]; simpl.
  - by rewrite filter_cons_True.
  - rewrite filter_cons_False by (apply Hbefore; left).
    apply IH. intros q' Hq'. apply Hbefore. by right.
Qed.

(** C1.  Whether the context parameter is named by the caller of
    [from_function] or, when the caller names none, is the first
    parameter of the producer annotated with [Context], the template
    built records its name, and the schema stored has no property, no
    required entry and no model field under that name, while every
    other parameter of the producer is kept; and [create_resource]
    submits the URI parameters alone to validation, hands the context to
    the producer under the context parameter's name exactly as it was
    given, and succeeds whenever the validation of the URI parameters,
    the producer and the construction of the resource succeed, whatever
    the context value is. *)
Theorem context_bypass :
  (∀ (fn : pyfunc) uri_template name title description mime_type icons annotations
     context_kwarg (t : ResourceTemplate.t) (c : string),
     ResourceTemplate.from_function fn uri_template name title description mime_type
       icons annotations context_kwarg = inr t →
     context_kwarg = Some c
     ∨ (context_kwarg = None
        ∧ ∃ before p after,
            fn_params fn = before ++ p :: after
            ∧ p_name p = c ∧ p_annotation p = AContext
            ∧ ∀ q, q ∈ before → p_annotation q ≠ AContext) →
     ResourceTemplate.context_kwarg t = Some c
     ∧ FuncMetadata.properties (ResourceTemplate.parameters t) !! c = None
     ∧ (c ∉ FuncMetadata.required (ResourceTemplate.parameters t))
     ∧ (c ∉ map p_name (FuncMetadata.arg_model (ResourceTemplate.fn_metadata t)))
     ∧ (∀ q, q ∈ fn_params fn → p_name q ≠ c →
          q ∈ FuncMetadata.arg_model (ResourceTemplate.fn_metadata t)
          ∧ is_Some (FuncMetadata.properties (ResourceTemplate.parameters t)
                     !! p_name q)))
  ∧ (∀ (t : ResourceTemplate.t) (c uri : string) (params parsed : gmap string pyval)
       (context : pyval) (σ : Py.state),
       ResourceTemplate.context_kwarg t = Some c →
       model_validate (FuncMetadata.arg_model (ResourceTemplate.fn_metadata t)) params
       = inr parsed →
       let kwargs := {[ c := context ]} ∪ parsed in
       let out := fn_body (ResourceTemplate.fn t) kwargs (Py.world σ) in
       kwargs !! c = Some context
       ∧ Py.trace (ResourceTemplate.create_resource t uri params context σ).2
         = Py.trace σ
           ++ [Py.EValidate params; Py.EInvoke (fn_name (ResourceTemplate.fn t)) kwargs]
       ∧ (∀ v base,
            out.1 = inr v →
            Resource.validate (ResourceTemplate.resource_args t uri) = inr base →
            ResourceTemplate.create_resource t uri params context σ
            = (inr (FunctionResource.Make base (λ _, mret v)),
               Py.State out.2
                 (Py.trace σ
                  ++ [Py.EValidate params;
                      Py.EInvoke (fn_name (ResourceTemplate.fn t)) kwargs])))).
Proof.
  split.
  - intros fn ut name title description mime_type icons annotations ck t c Hfrom Hc.
    unfold ResourceTemplate.from_function in Hfrom.
    destruct (decide (_ = "<lambda>")); [done|].
    injection Hfrom as <-. simpl.
    assert (Hck : match ck with
                  | Some c' => Some c'
                  | None => FuncMetadata.find_context_parameter fn
                  end = Some c).
    { destruct Hc as [->|(-> & before & p & after & Hfn & <- & Hp & Hbefore)];
        [done|]. by apply (find_context_parameter_first fn before after p). }
    rewrite Hck.
    unfold FuncMetadata.func_metadata, FuncMetadata.model_json_schema. simpl.
    split_and!.
    + done.
    + apply schema_lookup_none. intros p. apply skipped_name.
    + apply not_elem_of_names.
      intros p [_ Hp]%list_elem_of_filter. by apply skipped_name in Hp.
    + apply not_elem_of_names. intros p. apply skipped_name.
    + intros q Hq Hne.
      assert (Hin : q ∈ filter (λ p, p_name p ∉ [c]) (fn_params fn)).
      { apply list_elem_of_filter. split; [|done]. by intros ?%list_elem_of_singleton. }
      split; [done|]. by apply schema_lookup_some.
  - intros t c uri params parsed context σ Hc Hvalid kwargs out.
    rewrite create_resource_spec, call_fn_with_arg_validation_spec, Hvalid.
    unfold ResourceTemplate.direct_arguments. rewrite Hc. simpl.
    fold kwargs. fold out. split_and!.
    + unfold kwargs. apply lookup_union_Some_l, lookup_singleton_eq.
    + destruct out.1 as [e|v]; simpl; [by destruct (is_Exception _)|].
      by destruct (Resource.validate _).
    + intros v base Hv Hbase. by rewrite Hv; simpl; rewrite Hbase.
Qed.

(** C2, as the code has it.  When the validated call raises an
    exception that is an instance of [Exception] (a failed validation
    always is, a producer's exception may be), [create_resource] raises
    [ValueError], whatever the type of the original, and its message is
    "Error creating resource from template: " followed by the text of
    that exception, which it therefore contains; an exception outside
    [Exception] passes through unchanged.  For a failed validation the
    text is the rendering of the validation error under the name of the
    argument model.  For a producer's exception derived from [Exception]
    it is the producer's own text, unless the exception is a
    [StopIteration]: that one leaves the awaited call as a
    [RuntimeError], and the message ends in "coroutine raised
    StopIteration" instead of the producer's text. *)
Theorem create_resource_uniform_error (t : ResourceTemplate.t) (uri : string)
    (params : gmap string pyval) (context : pyval) (σ : Py.state) :
  (∀ e σ',
     FuncMetadata.call_fn_with_arg_validation
       (ResourceTemplate.fn_metadata t) (ResourceTemplate.fn t)
       (ResourceTemplate.is_async t) params
       (ResourceTemplate.direct_arguments t context) σ = (inl e, σ') →
     (is_Exception e = true →
        ResourceTemplate.create_resource t uri params context σ
        = (inl (ValueError
                  ("Error creating resource from template: " +:+ Py.exn_str e)), σ')
        ∧ PyStr.contains (Py.exn_str e)
            ("Error creating resource from template: " +:+ Py.exn_str e))
     ∧ (is_Exception e = false →
        ResourceTemplate.create_resource t uri params context σ = (inl e, σ')))
  ∧ (∀ errors,
       model_validate (FuncMetadata.arg_model (ResourceTemplate.fn_metadata t)) params
       = inl errors →
       ResourceTemplate.create_resource t uri params context σ
       = (inl (ValueError
                 ("Error creating resource from template: "
                  +:+ render_validation_error
                        (FuncMetadata.arg_model_name (ResourceTemplate.fn_metadata t))
                        errors)),
          Py.State (Py.world σ) (Py.trace σ ++ [Py.EValidate params])))
  ∧ (∀ parsed e w,
       model_validate (FuncMetadata.arg_model (ResourceTemplate.fn_metadata t)) params
       = inr parsed →
       let kwargs :=
         default ∅ (ResourceTemplate.direct_arguments t context) ∪ parsed in
       let σ' :=
         Py.State w
           (Py.trace σ
            ++ [Py.EValidate params;
                Py.EInvoke (fn_name (ResourceTemplate.fn t)) kwargs]) in
       fn_body (ResourceTemplate.fn t) kwargs (Py.world σ) = (inl e, w) →
       (is_Exception e = true → is_StopIteration e = false →
          ResourceTemplate.create_resource t uri params context σ
          = (inl (ValueError
                    ("Error creating resource from template: " +:+ Py.exn_str e)),
             σ'))
       ∧ (is_StopIteration e = true →
          ResourceTemplate.create_resource t uri params context σ
          = (inl (ValueError
                    "Error creating resource from template: coroutine raised StopIteration"),
             σ'))
       ∧ (is_Exception e = false →
          ResourceTemplate.create_resource t uri params context σ = (inl e, σ'))).
Proof.
  split_and!.
  - intros e σ' Hcall. rewrite create_resource_spec, Hcall. split.
    + intros ->. split; [done|].
      exists "Error creating resource from template: ", "". by rewrite str_app_nil_r.
    + by intros ->.
  - intros errors Hvalid.
    by rewrite create_resource_spec, call_fn_with_arg_validation_spec, Hvalid.
  - intros parsed e w Hvalid kwargs σ' Hbody.
    rewrite create_resource_spec, call_fn_with_arg_validation_spec, Hvalid. simpl.
    fold kwargs. rewrite Hbody. simpl. fold σ'.
    rewrite leave_coroutine_is_Exception. split_and!.
    + intros -> Hstop. by rewrite leave_coroutine_other.
    + intros Hstop. rewrite leave_coroutine_stop by done. by destruct e.
    + intros Hexn. rewrite Hexn. rewrite leave_coroutine_other; [done|].
      by destruct e.
Qed.

(** C3.  A successful [create_resource] has invoked the producer exactly
    once, and every [read] of the resource it returns, however often
    repeated and in whatever state, yields the value the producer
    returned and leaves the state, its trace of invocations included,
    as it was. *)
Theorem create_resource_single_invocation (t : ResourceTemplate.t) (uri : string)
    (params : gmap string pyval) (context : pyval) (σ σ' : Py.state)
    (r : FunctionResource.t) :
  ResourceTemplate.create_resource t uri params context σ = (inr r, σ') →
  Py.invocations (Py.trace σ') = S (Py.invocations (Py.trace σ))
  ∧ ∃ kwargs v,
      Py.trace σ'
      = Py.trace σ
        ++ [Py.EValidate params; Py.EInvoke (fn_name (ResourceTemplate.fn t)) kwargs]
      ∧ fn_body (ResourceTemplate.fn t) kwargs (Py.world σ) = (inr v, Py.world σ')
      ∧ (∀ c τ, FunctionResource.read r c τ = (inr v, τ))
      ∧ (∀ n c τ, FunctionResource.read_many n r c τ = (inr (replicate n v), τ)).
Proof.
  rewrite create_resource_spec, call_fn_with_arg_validation_spec.
  destruct (model_validate _ params) as [errors|parsed]; [done|]. simpl.
  set (kwargs := default ∅ (ResourceTemplate.direct_arguments t context) ∪ parsed).
  destruct (fn_body (ResourceTemplate.fn t) kwargs (Py.world σ)) as [[e|v] w] eqn:Hbody;
    simpl; [by destruct (is_Exception _)|].
  destruct (Resource.validate _) as [errors|base]; [done|].
  intros [= <- <-]. simpl. split.
  - rewrite invocations_app. simpl. lia.
  - exists kwargs, v. split_and!; [done|done|done|].
    by apply read_many_constant.
Qed.

(** C9, as the code has it.  The resource returned by a successful
    [create_resource] has the URL parsed from the [uri] argument, the
    template's name unless that is empty (then the string form of the
    URL), and the template's title, description, MIME type, icons and
    annotations. *)
Theorem create_resource_metadata (t : ResourceTemplate.t) (uri : string)
    (params : gmap string pyval) (context : pyval) (σ σ' : Py.state)
    (r : FunctionResource.t) :
  ResourceTemplate.create_resource t uri params context σ = (inr r, σ') →
  let b := FunctionResource.base r in
  url_validate uri = inr (Resource.uri b)
  ∧ Resource.name b
    = Some (if decide (ResourceTemplate.name t = "")
            then url_str (Resource.uri b) else ResourceTemplate.name t)
  ∧ Resource.title b = ResourceTemplate.title t
  ∧ Resource.description b = ResourceTemplate.description t
  ∧ Resource.mime_type b = ResourceTemplate.mime_type t
  ∧ Resource.icons b = ResourceTemplate.icons t
  ∧ Resource.annotations b = ResourceTemplate.annotations t.
Proof.
  rewrite create_resource_spec.
  destruct (FuncMetadata.call_fn_with_arg_validation _ _ _ _ _ σ) as [[e|v] τ];
    [by destruct (is_Exception e)|].
  destruct (Resource.validate _) as [errors|base] eqn:Hbase; [done|].
  intros [= <- <-]. simpl.
  unfold Resource.validate, Resource.validate_uri, Resource.validate_name,
    Resource.validate_mime_type, ResourceTemplate.resource_args in Hbase.
  simpl in Hbase.
  destruct (url_validate uri) as [reason|u]; simpl in Hbase.
  { by destruct (ResourceTemplate.name t), (Resource.mime_type_ok _). }
  destruct (ResourceTemplate.name t) as [|a n] eqn:Hname; simpl in Hbase;
    destruct (Resource.mime_type_ok _); try done;
    injection Hbase as <-; simpl; by rewrite ?Hname.
Qed.


End ResourceLayer.

Section Construction.
Context `{Externals}.

(** C7, as the code has it.  Without a name, or with an empty one, a
    producer whose declared name is [<lambda>] is refused with a
    [ValueError] that asks for a name, and any other producer gives the
    template its own name; a name that is supplied, is not empty and is
    not itself [<lambda>] becomes the template's name, and construction
    goes through. *)
Theorem from_function_name (fn : pyfunc) (uri_template : string)
    (name title description mime_type : option string)
    (icons : option (list Icon)) (annotations : option Annotations)
    (context_kwarg : option string) :
  let made :=
    ResourceTemplate.from_function fn uri_template name title description mime_type
      icons annotations context_kwarg in
  (truthy name = false → fn_name fn = "<lambda>" →
     made = inl (ValueError "You must provide a name for lambda functions"))
  ∧ (truthy name = false → fn_name fn ≠ "<lambda>" →
       ∃ t, made = inr t ∧ ResourceTemplate.name t = fn_name fn)
  ∧ (∀ n, name = Some n → n ≠ "" → n ≠ "<lambda>" →
       ∃ t, made = inr t ∧ ResourceTemplate.name t = n).
Proof.
  intros made. unfold made, ResourceTemplate.from_function. split_and!.
  - intros Hname Hfn.
    assert (ResourceTemplate.or_str name (fn_name fn) = fn_name fn) as ->
      by (by destruct name as [[|??]|]).
    by rewrite decide_True.
  - intros Hname Hfn.
    assert (ResourceTemplate.or_str name (fn_name fn) = fn_name fn) as ->
      by (by destruct name as [[|??]|]).
    rewrite decide_False by done. by eauto.
  - intros n -> Hne Hlambda.
    assert (ResourceTemplate.or_str (Some n) (fn_name fn) = n) as ->
      by (by destruct n).
    rewrite decide_False by done. by eauto.
Qed.

(** C8.  When no name is given, or an empty one, [set_default_name]
    answers with the string form of the validated [uri], so that the
    resource constructed from a valid [uri] bears that string as its
    name; when the [uri] is absent too, it raises, and construction
    fails with the error that either a name or a uri must be
    provided. *)
Theorem resource_name_default (a : Resource.args) :
  truthy (Resource.a_name a) = false →
  (∀ u, Resource.set_default_name (Resource.a_name a) (Some u)
        = Resource.Return (url_str u))
  ∧ Resource.set_default_name (Resource.a_name a) None
    = Resource.RaiseValueError "Either name or uri must be provided"
  ∧ (∀ s u, Resource.a_uri a = Some s → url_validate s = inr u →
       (∀ r, Resource.validate a = inr r →
             Resource.uri r = u ∧ Resource.name r = Some (url_str u))
       ∧ (Resource.mime_type_ok (default "text/plain" (Resource.a_mime_type a)) = true →
          ∃ r, Resource.validate a = inr r ∧ Resource.name r = Some (url_str u)))
  ∧ (Resource.a_uri a = None →
       ∃ errors, Resource.validate a = inl errors
                 ∧ ("name", ValueErrorDetail "Either name or uri must be provided")
                   ∈ errors).
Proof.
  intros Hname.
  assert (Hsome : ∀ u, Resource.set_default_name (Resource.a_name a) (Some u)
                       = Resource.Return (url_str u))
    by (intros u; by destruct (Resource.a_name a) as [[|??]|]).
  assert (Hnone : Resource.set_default_name (Resource.a_name a) None
                  = Resource.RaiseValueError "Either name or uri must be provided")
    by (by destruct (Resource.a_name a) as [[|??]|]).
  split_and!; [done|done| |].
  - intros s u Hs Hu.
    unfold Resource.validate, Resource.validate_uri, Resource.validate_name,
      Resource.validate_mime_type.
    rewrite Hs, Hu. simpl. rewrite Hsome. split.
    + intros r. destruct (Resource.mime_type_ok _); [|done]. by intros [= <-].
    + intros ->. by eauto.
  - intros Hs.
    unfold Resource.validate, Resource.validate_uri, Resource.validate_name.
    rewrite Hs. simpl. rewrite Hnone.
    destruct (Resource.validate_mime_type a); eexists; (split; [reflexivity|]);
      simpl; set_solver.
Qed.

End Construction.

(** ** The properties in the concrete setting *)

Lemma demo_create_resource :
  ResourceTemplate.create_resource Demo.weather Demo.paris Demo.paris_params Demo.ctx
    Demo.start
  = (inr Demo.paris_resource, Demo.after_paris).
Proof. reflexivity. Qed.

Lemma demo_from_function :
  ResourceTemplate.from_function Demo.get_weather "weather://{city}/current"
    None None None None None None None
  = inr Demo.weather.
Proof. reflexivity. Qed.

(** [get_weather] names no context parameter; its parameter [ctx] is
    found by its annotation, left out of the schema, and the live
    context object reaches the producer unvalidated. *)
Lemma context_bypass_witness :
  ResourceTemplate.from_function Demo.get_weather "weather://{city}/current"
    None None None None None None None
  = inr Demo.weather
  ∧ ResourceTemplate.context_kwarg Demo.weather = Some "ctx"
  ∧ FuncMetadata.properties (ResourceTemplate.parameters Demo.weather) !! "ctx" = None
  ∧ is_Some (FuncMetadata.properties (ResourceTemplate.parameters Demo.weather)
             !! "city")
  ∧ Demo.paris_kwargs !! "ctx" = Some Demo.ctx
  ∧ ResourceTemplate.create_resource Demo.weather Demo.paris Demo.paris_params
      Demo.ctx Demo.start
    = (inr Demo.paris_resource, Demo.after_paris).
Proof.
  destruct (@context_bypass Demo.externals) as [Hschema Hcall].
  specialize (Hschema Demo.get_weather "weather://{city}/current"
                None None None None None None None Demo.weather "ctx"
                demo_from_function).
  destruct Hschema as (Hkwarg & Hprop & _ & _ & Hkept).
  { right. split; [reflexivity|].
    exists [Param "city" (AType "str") true], (Param "ctx" AContext true), [].
    split_and!; [reflexivity|reflexivity|reflexivity|].
    by intros q ->%list_elem_of_singleton. }
  destruct (Hkept (Param "city" (AType "str") true)) as [_ Hcity];
    [by left|done|].
  destruct (Hcall Demo.weather "ctx" Demo.paris Demo.paris_params Demo.paris_params
              Demo.ctx Demo.start eq_refl eq_refl) as (Hkw & _ & Hok).
  split; [exact demo_from_function|]. split; [exact Hkwarg|].
  split; [exact Hprop|]. split; [exact Hcity|]. split; [exact Hkw|].
  exact (Hok (VStr "Weather for paris") Demo.paris_base eq_refl eq_refl).
Defined.

(** An unknown city: the producer's [LookupError] comes back as the
    uniform error, with the producer's text after the prefix. *)
Lemma create_resource_uniform_error_witness :
  ResourceTemplate.create_resource Demo.weather "weather://atlantis/current"
    {[ "city" := VStr "atlantis" ]} Demo.ctx Demo.start
  = (inl (ValueError "Error creating resource from template: unknown city"),
     @Py.State Demo.externals 1
       [Py.EValidate {[ "city" := VStr "atlantis" ]};
        Py.EInvoke "get_weather"
          ({[ "ctx" := Demo.ctx ]} ∪ {[ "city" := VStr "atlantis" ]})]).
Proof.
  pose proof (@create_resource_uniform_error Demo.externals Demo.weather
                "weather://atlantis/current" {[ "city" := VStr "atlantis" ]}
                Demo.ctx Demo.start) as (_ & _ & Hproducer).
  specialize (Hproducer {[ "city" := VStr "atlantis" ]}
                (OtherException "LookupError" "unknown city") 1).
  specialize (Hproducer eq_refl). specialize (Hproducer eq_refl).
  destruct Hproducer as (Hwrapped & _ & _).
  specialize (Hwrapped eq_refl). specialize (Hwrapped eq_refl). exact Hwrapped.
Defined.

Lemma contains_count_char (c : ascii) (sub s : string) :
  PyStr.contains sub s → PyStr.count_char c sub ≤ PyStr.count_char c s.
Proof. intros (pre & post & ->). rewrite !count_char_app. lia. Qed.

(** A producer that raises [StopIteration]: the message of the uniform
    error does not contain the producer's text. *)
Example create_resource_stop_iteration :
  fn_body exhausted Demo.paris_params 0 = (inl (StopIteration "exhausted"), 0)
  ∧ ResourceTemplate.create_resource exhausted_template Demo.paris Demo.paris_params
      Demo.ctx Demo.start
    = (inl (ValueError
              "Error creating resource from template: coroutine raised StopIteration"),
       @Py.State Demo.externals 0
         [Py.EValidate Demo.paris_params; Py.EInvoke "exhausted" Demo.paris_params])
  ∧ ¬ PyStr.contains "exhausted"
        "Error creating resource from template: coroutine raised StopIteration".
Proof.
  split_and!; [reflexivity|reflexivity|].
  intros Hsub%(contains_count_char "x"). vm_compute in Hsub. lia.
Qed.

(** C2 as stated fails: a producer that raises [KeyboardInterrupt] makes
    [create_resource] raise that very exception, not the uniform
    error. *)
Lemma create_resource_uniform_error_counterexample :
  ResourceTemplate.create_resource Demo.interrupted_template Demo.paris
    Demo.paris_params Demo.ctx Demo.start
  = (inl (BaseExceptionOnly "KeyboardInterrupt" ""),
     @Py.State Demo.externals 0
       [Py.EValidate Demo.paris_params; Py.EInvoke "interrupted" Demo.paris_params]).
Proof. reflexivity. Qed.

Lemma create_resource_single_invocation_witness :
  Py.invocations (Py.trace Demo.after_paris) = 1
  ∧ ∀ n c τ,
      FunctionResource.read_many n Demo.paris_resource c τ
      = (inr (replicate n (VStr "Weather for paris")), τ).
Proof.
  destruct (@create_resource_single_invocation Demo.externals Demo.weather Demo.paris
              Demo.paris_params Demo.ctx Demo.start Demo.after_paris
              Demo.paris_resource demo_create_resource)
    as (Hcount & kwargs & v & _ & _ & Hread & Hmany).
  split; [exact Hcount|].
  intros n c τ. rewrite (Hmany n c τ). do 2 f_equal.
  specialize (Hread VNone Demo.start). by injection Hread as <-.
Defined.

Lemma create_resource_metadata_witness :
  Resource.uri Demo.paris_base = Demo.paris
  ∧ Resource.name Demo.paris_base = Some "get_weather"
  ∧ Resource.mime_type Demo.paris_base = "text/plain".
Proof.
  destruct (@create_resource_metadata Demo.externals Demo.weather Demo.paris
              Demo.paris_params Demo.ctx Demo.start Demo.after_paris
              Demo.paris_resource demo_create_resource)
    as (_ & Hname & _ & _ & Hmime & _).
  split; [reflexivity|]. split; [exact Hname|exact Hmime].
Defined.

(** C9 as stated fails: a template whose name is empty yields a resource
    named after its URI. *)
Lemma create_resource_metadata_counterexample :
  let t := Demo.template "weather://{city}/current" "" in
  ∃ r σ',
    ResourceTemplate.create_resource t Demo.paris Demo.paris_params Demo.ctx Demo.start
    = (inr r, σ')
    ∧ ResourceTemplate.name t = ""
    ∧ Resource.name (FunctionResource.base r) = Some "weather://paris/current".
Proof.
  eexists (@FunctionResource.Make Demo.externals
             (@Resource.Make Demo.externals Demo.paris (Some Demo.paris) None
                (Some "Current weather of a city.") "text/plain" None None)
             (λ _, mret (VStr "Weather for paris"))), Demo.after_paris.
  split; [reflexivity|]. split; reflexivity.
Qed.


Lemma from_function_name_witness :
  ResourceTemplate.from_function Demo.anonymous "echo://{city}"
    None None None None None None None
  = inl (ValueError "You must provide a name for lambda functions")
  ∧ ∃ t, ResourceTemplate.from_function Demo.anonymous "echo://{city}"
           (Some "echo") None None None None None None = inr t
         ∧ ResourceTemplate.name t = "echo".
Proof.
  split.
  - apply (@from_function_name Demo.externals Demo.anonymous "echo://{city}"
             None None None None None None None); reflexivity.
  - apply (@from_function_name Demo.externals Demo.anonymous "echo://{city}"
             (Some "echo") None None None None None None); [reflexivity|done|done].
Defined.

(** C7 as stated fails: a name is supplied, and construction is refused
    on the very step that resolves it. *)
Lemma from_function_name_counterexample :
  ResourceTemplate.from_function Demo.get_weather "weather://{city}/current"
    (Some "<lambda>") None None None None None None
  = inl (ValueError "You must provide a name for lambda functions").
Proof. reflexivity. Qed.

Lemma resource_name_default_witness :
  (∃ r, @Resource.validate Demo.externals
          (Resource.Args (Some "file:///a.txt") None None None None None None) = inr r
        ∧ Resource.name r = Some "file:///a.txt")
  ∧ ∃ errors, @Resource.validate Demo.externals
                (Resource.Args None None None None None None None) = inl errors
              ∧ ("name", ValueErrorDetail "Either name or uri must be provided")
                ∈ errors.
Proof.
  split.
  - destruct (@resource_name_default Demo.externals
                (Resource.Args (Some "file:///a.txt") None None None None None None)
                eq_refl) as (_ & _ & Huri & _).
    destruct (Huri "file:///a.txt" "file:///a.txt" eq_refl eq_refl) as [_ Hmake].
    exact (Hmake eq_refl).
  - destruct (@resource_name_default Demo.externals
                (Resource.Args None None None None None None None) eq_refl)
      as (_ & _ & _ & Hnone).
    exact (Hnone eq_refl).
Defined.

(** ** Further properties of [matches]: errors *)

Ltac parse_chars :=
  simpl Re.parse_loop;
  unfold Re.with_mode, Re.push_item, Re.open_group, Re.quantify, Re.frame_body;
  simpl.

Section MatchesErrors.

Lemma pattern_literal (s : string) : Template.pattern (Template.literal s) = s.
Proof. induction s as [|c s IH]; [done|]. simpl. by rewrite IH. Qed.

Lemma item_ok_literal (s : string) :
  PyStr.all_chars Template.plain_char s = true →
  forallb Template.item_ok (Template.literal s) = true.
Proof.
  induction s as [|c s IH]; [done|]. simpl.
  intros [-> Hs]%andb_true_iff. by apply IH.
Qed.

Lemma plain_no_char (c : ascii) (s : string) :
  c ∈ Template.special →
  PyStr.all_chars Template.plain_char s = true → PyStr.count_char c s = 0.
Proof.
  intros Hc. apply all_chars_count_zero. unfold Template.plain_char.
  by rewrite bool_decide_eq_true_2.
Qed.

(** Literal text is read item by item, whatever is open. *)
Lemma parse_literal (a rest : string) cur stack names :
  PyStr.all_chars Template.plain_char a = true →
  Re.parse_loop (Re.PState cur stack names Re.MNormal) (a +:+ rest)
  = Re.parse_loop
      (after_items (Template.literal a) (Re.PState cur stack names Re.MNormal)) rest.
Proof.
  intros Ha. rewrite <- (pattern_literal a) at 1.
  apply parse_items; [done|by apply item_ok_literal| |].
  - rewrite names_literal. constructor.
  - intros n. rewrite names_literal. by intros ?%elem_of_nil.
Qed.

Lemma close_name_redefined (n : string) cur stack names m :
  PyStr.all_chars Re.is_ascii n = true →
  Re.is_identifier n = true →
  n ∈ names →
  Re.close_name n (Re.PState cur stack names m) = inr (Re.Invalid Re.RedefinedGroup).
Proof.
  intros Hascii Hid Hin. unfold Re.close_name.
  destruct n as [|a n]; [done|]. rewrite Hascii, Hid. simpl.
  by rewrite bool_decide_eq_true_2.
Qed.

Lemma clash_false (items : list Template.item) : ∀ seen,
  clash seen items = false
  ↔ NoDup (Template.names items) ∧ ∀ n, n ∈ Template.names items → n ∉ seen.
Proof.
  induction items as [|[c|n] items IH]; intros seen; simpl.
  - split; [|done]. intros _. split; [constructor|]. by intros n ?%elem_of_nil.
  - apply IH.
  - rewrite orb_false_iff, bool_decide_eq_false, IH, NoDup_cons. split.
    + intros (Hn & Hnd & Hseen). split_and!; [|done|].
      * intros Hin. by apply (Hseen n Hin); left.
      * intros m [->|Hm]%elem_of_cons; [done|].
        intros Hin. by apply (Hseen m Hm); right.
    + intros ([Hn Hnd] & Hseen). split_and!; [|done|].
      * apply Hseen. by left.
      * intros m Hm [->|Hin]%elem_of_cons; [done|].
        by apply (Hseen m); [right|].
Qed.

(** Reading the pattern of a template in which a name comes twice stops
    at the second occurrence. *)
Lemma parse_items_clash (items : list Template.item) : ∀ cur stack names rest,
  forallb Template.item_ok items = true →
  clash names items = true →
  Re.parse_loop (Re.PState cur stack names Re.MNormal) (Template.pattern items +:+ rest)
  = Re.Invalid Re.RedefinedGroup.
Proof.
  induction items as [|i items IH]; intros cur stack names rest Hok Hclash; [done|].
  simpl in Hok. apply andb_true_iff in Hok as [Hi Hok].
  destruct cur as [fname alts sq].
  destruct i as [c|n]; simpl Template.pattern; simpl in Hi, Hclash.
  - rewrite str_app_assoc, str_app_cons, str_app_nil_l, parse_loop_cons, step_plain
      by done.
    by apply IH.
  - apply andb_true_iff in Hi as [Hascii Hid].
    rewrite !str_app_assoc.
    change ("(?P<" +:+ n +:+ ">[^/]+)" +:+ Template.pattern items +:+ rest)
      with (String "(" (String "?" (String "P" (String "<"
             (n +:+ String ">" ("[^/]+)" +:+ Template.pattern items +:+ rest)))))).
    parse_chars.
    rewrite parse_name by (by apply identifier_no_char).
    rewrite str_app_nil_l.
    destruct (decide (n ∈ names)) as [Hin|Hout].
    + by rewrite close_name_redefined.
    + rewrite close_name_ok by done.
      rewrite bool_decide_eq_false_2 in Hclash by done. simpl in Hclash.
      change ("[^/]+)" +:+ Template.pattern items +:+ rest)
        with (String "[" (String "^" (String "/" (String "]" (String "+" (String ")"
               (Template.pattern items +:+ rest))))))).
      parse_chars. by apply IH.
Qed.

Lemma parse_name_unterminated (s acc : string) cur stack names :
  PyStr.count_char ">" s = 0 →
  Re.parse_loop (Re.PState cur stack names (Re.MName acc)) s
  = Re.Invalid Re.UnterminatedName.
Proof.
  revert acc. induction s as [|a s IH]; intros acc Hs; [done|].
  simpl in Hs. destruct (decide (a = ">"%char)) as [|Ha]; [done|].
  rewrite parse_loop_cons. unfold Re.step. simpl.
  rewrite decide_False by done. unfold Re.with_mode. simpl. by apply IH.
Qed.

Lemma count_subst_other (c c' : ascii) (new s : string) :
  c ≠ c' → PyStr.count_char c new = 0 →
  PyStr.count_char c (PyStr.subst_char c' new s) = PyStr.count_char c s.
Proof.
  intros Hne Hnew. induction s as [|a s IH]; [done|]. simpl.
  rewrite count_char_app, IH. destruct (decide (a = c')) as [->|].
  - rewrite Hnew. by rewrite decide_False.
  - simpl. lia.
Qed.

Context `{Externals}.

(** X1.  A template in which a placeholder name occurs twice cannot be
    matched against anything: compiling its pattern raises [re.error]
    (redefinition of a group name), whatever the URI. *)
Theorem matches_duplicate_name_raises (t : ResourceTemplate.t)
    (items : list Template.item) (uri : string) :
  ResourceTemplate.uri_template t = Template.text items →
  forallb Template.item_ok items = true →
  bool_decide (NoDup (Template.names items)) = false →
  ResourceTemplate.matches t uri = Raises Re.RedefinedGroup.
Proof.
  intros Ht Hok Hdup.
  assert (Hclash : clash [] items = true).
  { destruct (clash [] items) eqn:Hc; [done|].
    apply clash_false in Hc as [Hnd _].
    by rewrite bool_decide_eq_true_2 in Hdup. }
  unfold ResourceTemplate.matches, Re.re_match, ResourceTemplate.anchored_pattern,
    Re.compile.
  rewrite Ht, translate_text by done.
  change ("^" +:+ Template.pattern items +:+ "$")
    with (String "^" (Template.pattern items +:+ "$")).
  rewrite parse_loop_cons. simpl.
  unfold Re.push_item. simpl. by rewrite parse_items_clash.
Qed.

(** X2.  A closing brace that no opening brace precedes, and an opening
    brace that no closing brace follows, make [matches] raise
    [re.error] for every URI: the first as an unbalanced parenthesis,
    the second as an unterminated group name. *)
Theorem matches_stray_brace_raises (t : ResourceTemplate.t) (a b : string)
    (uri : string) :
  PyStr.all_chars Template.plain_char a = true →
  (ResourceTemplate.uri_template t = a +:+ "}" +:+ b →
     ResourceTemplate.matches t uri = Raises Re.UnbalancedParen)
  ∧ (ResourceTemplate.uri_template t = a +:+ "{" +:+ b →
     PyStr.count_char "}" b = 0 → PyStr.count_char ">" b = 0 →
     ResourceTemplate.matches t uri = Raises Re.UnterminatedName).
Proof.
  intros Ha.
  assert (Hopen : PyStr.count_char "{" a = 0) by (apply plain_no_char; [|done]; set_solver).
  assert (Hclose : PyStr.count_char "}" a = 0) by (apply plain_no_char; [|done]; set_solver).
  split.
  - intros Ht.
    unfold ResourceTemplate.matches, Re.re_match, ResourceTemplate.anchored_pattern,
      Re.compile.
    rewrite Ht, !replace_char, !subst_char_app, !(subst_char_absent _ _ a) by done.
    change (PyStr.subst_char "}" ">[^/]+)" (PyStr.subst_char "{" "(?P<" "}"))
      with ">[^/]+)".
    set (rest := PyStr.subst_char "}" _ (PyStr.subst_char "{" _ b)).
    change ("^" +:+ (a +:+ ">[^/]+)" +:+ rest) +:+ "$")
      with (String "^" ((a +:+ ">[^/]+)" +:+ rest) +:+ "$")).
    rewrite parse_loop_cons. simpl. unfold Re.push_item. simpl.
    rewrite !str_app_assoc, parse_literal by done.
    unfold after_items. simpl.
    change (">[^/]+)" +:+ rest +:+ "$")
      with (String ">" (String "[" (String "^" (String "/" (String "]"
             (String "+" (String ")" (rest +:+ "$")))))))).
    parse_chars. reflexivity.
  - intros Ht Hb Hgt.
    unfold ResourceTemplate.matches, Re.re_match, ResourceTemplate.anchored_pattern,
      Re.compile.
    rewrite Ht, !replace_char, !subst_char_app, !(subst_char_absent _ _ a) by done.
    change (PyStr.subst_char "}" ">[^/]+)" (PyStr.subst_char "{" "(?P<" "{"))
      with "(?P<".
    set (rest := PyStr.subst_char "}" _ (PyStr.subst_char "{" _ b)).
    assert (Hrest : PyStr.count_char ">" rest = 0).
    { unfold rest. rewrite subst_char_absent.
      - by rewrite count_subst_other.
      - by rewrite count_subst_other. }
    clearbody rest.
    change ("^" +:+ (a +:+ "(?P<" +:+ rest) +:+ "$")
      with (String "^" ((a +:+ "(?P<" +:+ rest) +:+ "$")).
    rewrite parse_loop_cons. simpl. unfold Re.push_item. simpl.
    rewrite !str_app_assoc, parse_literal by done.
    unfold after_items. simpl.
    change ("(?P<" +:+ rest +:+ "$")
      with (String "(" (String "?" (String "P" (String "<" (rest +:+ "$"))))).
    parse_chars. rewrite parse_name_unterminated; [done|].
    by rewrite str_app_nil_l, count_char_app, Hrest.
Qed.

End MatchesErrors.

(** ** Further properties of [matches]: expansion and matching *)

Section Expansion.

Abbreviation segment_set := (Re.RSet true ["/"%char]).

(** The captures of a successful run spell out the text it consumed. *)
Lemma run_items_expand (tail : list Re.regex) (items : list Template.item) :
  ∀ pos s g (K : Re.cont) res,
  NoDup (Template.names items) →
  Re.run (Re.rseq (map Template.item_regex items ++ tail)) pos s g K = Some res →
  ∃ w s' g', s = w +:+ s' ∧ expand items (VStr <$> g') = Some w
             ∧ (∀ n, n ∉ Template.names items → g' !! n = g !! n)
             ∧ Re.run (Re.rseq tail) (pos + String.length w) s' g' K = Some res.
Proof.
  induction items as [|[c|n] items IH]; intros pos s g K res Hnd Hrun.
  - exists "", s, g. by rewrite Nat.add_0_r.
  - rewrite rseq_cons_items, run_seq in Hrun. simpl in Hrun.
    destruct s as [|a s1]; [done|].
    destruct (decide (a = c)) as [->|]; [|done].
    apply IH in Hrun as (w & s' & g' & -> & Hw & Hout & Hrun); [|done].
    exists (String c w), s', g'. simpl. rewrite Hw, <- Nat.add_succ_comm. done.
  - simpl in Hnd. apply NoDup_cons in Hnd as [Hn Hnd].
    rewrite rseq_cons_items, run_seq in Hrun.
    apply run_var_inv in Hrun as (v & s1 & -> & Hv & Hcount & Hrun).
    apply IH in Hrun as (w & s' & g' & -> & Hw & Hout & Hrun); [|done].
    exists (v +:+ w), s', g'. rewrite str_app_assoc, str_length_app, Nat.add_assoc.
    split_and!; [done| | |done].
    + simpl. rewrite lookup_fmap, (Hout _ Hn), lookup_insert_eq. simpl. by rewrite Hw.
    + intros m [Hne Hm]%not_elem_of_cons. by rewrite (Hout _ Hm), lookup_insert_ne.
Qed.

Lemma expand_agree (items : list Template.item) (d1 d2 : gmap string pyval) : ∀ w,
  (∀ n v, n ∈ Template.names items → d1 !! n = Some (VStr v) → d2 !! n = Some (VStr v)) →
  expand items d1 = Some w → expand items d2 = Some w.
Proof.
  induction items as [|[c|n] items IH]; intros w Hagree; simpl; [done| |].
  - destruct (expand items d1) as [w'|] eqn:Hw; [|done].
    by rewrite (IH w' Hagree eq_refl).
  - destruct (d1 !! n) as [[| | |v| |]|] eqn:Hv; try done.
    rewrite (Hagree n v) by (done || left).
    destruct (expand items d1) as [w'|] eqn:Hw; [|done].
    rewrite (IH w'); [done| |done].
    intros m u Hm. apply Hagree. by right.
Qed.

Lemma expand_groupdict (items : list Template.item) e g names w :
  (∀ n, n ∈ Template.names items → n ∈ names) →
  expand items (VStr <$> g) = Some w →
  expand items (Re.groupdict (Re.MatchObj e g names)) = Some w.
Proof.
  intros Hnames. apply expand_agree. intros n v Hn.
  rewrite lookup_fmap. destruct (g !! n) as [u|] eqn:Hu; [|done].
  intros [= <-]. unfold Re.groupdict. simpl.
  rewrite groupdict_lookup by (by apply Hnames). by rewrite Hu.
Qed.

(** When the text after a segment is empty or begins with [/], the
    greedy loop takes the whole segment and goes on from there. *)
Lemma star_segment_exact (v : string) : ∀ fuel pos rest g (K : Re.cont) r,
  String.length v ≤ fuel →
  PyStr.count_char "/" v = 0 →
  (rest = "" ∨ ∃ rest', rest = String "/" rest') →
  K (pos + String.length v) rest g = Some r →
  Re.star_loop (Re.run segment_set) K fuel pos (v +:+ rest) g = Some r.
Proof.
  induction v as [|a v IH]; intros fuel pos rest g K r Hfuel Hv Hrest HK.
  - simpl in HK. rewrite Nat.add_0_r in HK. rewrite str_app_nil_l.
    destruct fuel as [|fuel]; [done|]. rewrite star_loop_S.
    destruct Hrest as [->|[rest' ->]].
    + by rewrite HK.
    + by rewrite run_set_cons, slash_in_set.
  - simpl in Hfuel, Hv. destruct (decide (a = "/"%char)) as [|Ha]; [done|].
    destruct fuel as [|fuel]; [lia|].
    rewrite star_loop_S, str_app_cons, run_segment by done.
    rewrite decide_False by lia.
    rewrite (IH fuel (S pos) rest g K r); [done|lia|done|done|].
    simpl in HK. by rewrite <- Nat.add_succ_comm in HK.
Qed.

Lemma run_var_exact n pos (v rest : string) g (K : Re.cont) r :
  v ≠ "" → PyStr.count_char "/" v = 0 →
  (rest = "" ∨ ∃ rest', rest = String "/" rest') →
  K (pos + String.length v) rest (<[n := v]> g) = Some r →
  Re.run (Template.item_regex (Template.Var n)) pos (v +:+ rest) g K = Some r.
Proof.
  intros Hv Hcount Hrest HK. destruct v as [|a w]; [done|].
  simpl in Hcount. destruct (decide (a = "/"%char)) as [|Ha]; [done|].
  rewrite run_var_unfold, str_app_cons, run_segment by done.
  apply star_segment_exact; [by rewrite str_length_app; lia|done|done|].
  replace (S pos + String.length w - pos) with (S (String.length w)) by lia.
  simpl. rewrite substring_prefix.
  simpl in HK. by rewrite <- Nat.add_succ_comm in HK.
Qed.

Lemma expand_rest (items : list Template.item) (values : gmap string pyval) w :
  separated (Template.Var "" :: items) = true →
  expand items values = Some w →
  w = "" ∨ ∃ w', w = String "/" w'.
Proof.
  destruct items as [|[c|m] items]; simpl; [| |done].
  - intros _ [= <-]. by left.
  - intros [->%bool_decide_eq_true _]%andb_true_iff.
    destruct (expand items values) as [w'|]; [|done]. intros [= <-]. eauto.
Qed.

(** On the expansion of a template whose placeholders are each followed
    by [/] or by nothing, the run takes every value whole. *)
Lemma run_items_exact (values : gmap string pyval) (items : list Template.item) :
  ∀ w pos g,
  separated items = true →
  NoDup (Template.names items) →
  (∀ n, n ∈ Template.names items →
     ∃ v, values !! n = Some (VStr v) ∧ v ≠ "" ∧ PyStr.count_char "/" v = 0) →
  expand items values = Some w →
  ∃ g', Re.run (Re.rseq (map Template.item_regex items ++ [Re.REol])) pos w g Re.accept
        = Some (pos + String.length w, g')
        ∧ (∀ n v, n ∈ Template.names items → values !! n = Some (VStr v) →
                  g' !! n = Some v)
        ∧ (∀ n, n ∉ Template.names items → g' !! n = g !! n).
Proof.
  induction items as [|[c|n] items IH]; intros w pos g Hsep Hnd Hvals Hw.
  - injection Hw as <-. exists g. rewrite Nat.add_0_r.
    split_and!; [done| |done]. by intros n v ?%elem_of_nil.
  - simpl in Hw. destruct (expand items values) as [w'|] eqn:Hw'; [|done].
    injection Hw as <-.
    destruct (IH w' (S pos) g Hsep Hnd Hvals eq_refl) as (g' & Hrun & Hin & Hout).
    exists g'. rewrite rseq_cons_items, run_seq. simpl.
    rewrite decide_True by done. rewrite Hrun, <- Nat.add_succ_comm. done.
  - simpl in Hnd. apply NoDup_cons in Hnd as [Hn Hnd].
    destruct (Hvals n) as (v & Hv & Hne & Hcount); [left|].
    simpl in Hw. rewrite Hv in Hw.
    destruct (expand items values) as [w'|] eqn:Hw'; [|done].
    injection Hw as <-.
    assert (Hsep' : separated items = true).
    { simpl in Hsep. destruct items as [|[c|m] items']; [done| |done].
      by apply andb_true_iff in Hsep as [_ ?]. }
    destruct (IH w' (pos + String.length v) (<[n := v]> g) Hsep' Hnd) as
      (g' & Hrun & Hin & Hout); [|done|].
    { intros m Hm. apply Hvals. by right. }
    exists g'. rewrite rseq_cons_items, run_seq. split_and!.
    + rewrite str_length_app, Nat.add_assoc.
      apply run_var_exact; [done|done| |done].
      by apply (expand_rest items values).
    + intros m u [->|Hm]%elem_of_cons Hu.
      * rewrite Hv in Hu. injection Hu as <-.
        by rewrite (Hout _ Hn), lookup_insert_eq.
      * by apply Hin.
    + intros m [Hne' Hm]%not_elem_of_cons. by rewrite (Hout _ Hm), lookup_insert_ne.
Qed.

Context `{Externals}.

(** X3.  Matching, then expanding, gives the URI back: the mapping that
    [matches] returns for a URI, put into the template, yields the URI
    again, up to one newline at its very end; for a URI that does not
    end in a newline it yields exactly the URI. *)
Theorem matches_then_expand (t : ResourceTemplate.t) (items : list Template.item)
    (uri : string) (d : gmap string pyval) :
  ResourceTemplate.uri_template t = Template.text items →
  Template.well_formed items = true →
  ResourceTemplate.matches t uri = Returns (Some d) →
  (∃ w s', expand items d = Some w ∧ uri = w +:+ s' ∧ trailer s')
  ∧ (PyStr.ends_with_newline uri = false → expand items d = Some uri).
Proof.
  intros Ht Hwf Hd.
  assert (Hnd : NoDup (Template.names items)).
  { unfold Template.well_formed in Hwf.
    by apply andb_true_iff in Hwf as [_ ?%bool_decide_eq_true]. }
  unfold ResourceTemplate.matches in Hd.
  rewrite (re_match_template t items uri Ht Hwf) in Hd.
  destruct (Re.run _ 0 uri ∅ Re.accept) as [[e g]|] eqn:Hrun; [|done].
  injection Hd as <-.
  change (Re.rseq (Re.RBol :: map Template.item_regex items ++ [Re.REol]))
    with (Re.RSeq Re.RBol (Re.rseq (map Template.item_regex items ++ [Re.REol])))
    in Hrun.
  rewrite run_seq in Hrun. simpl Re.run at 1 in Hrun.
  apply run_items_expand in Hrun as (w & s' & g' & -> & Hw & _ & Hrun); [|done].
  apply run_eol_inv in Hrun as [Htr Heq].
  assert (Hexp : expand items (Re.groupdict (Re.MatchObj e g (Template.names items)))
                 = Some w).
  { injection Heq as _ ->. by apply expand_groupdict. }
  split; [by eauto|].
  intros Hnl. rewrite (trailer_newline w s' Htr Hnl), str_app_nil_r. exact Hexp.
Qed.

(** X4.  Expansion followed by matching is the identity: for a template
    whose placeholders are each followed by a literal [/] or end the
    template, and values that are non-empty strings without [/],
    [matches] on the expanded URI returns exactly those values. *)
Theorem expand_then_matches (t : ResourceTemplate.t) (items : list Template.item)
    (values : gmap string pyval) (uri : string) :
  ResourceTemplate.uri_template t = Template.text items →
  Template.well_formed items = true →
  separated items = true →
  segment_values items values →
  expand items values = Some uri →
  ResourceTemplate.matches t uri = Returns (Some values).
Proof.
  intros Ht Hwf Hsep [Hin Hout] Huri.
  assert (Hnd : NoDup (Template.names items)).
  { unfold Template.well_formed in Hwf.
    by apply andb_true_iff in Hwf as [_ ?%bool_decide_eq_true]. }
  unfold ResourceTemplate.matches.
  rewrite (re_match_template t items uri Ht Hwf).
  change (Re.rseq (Re.RBol :: map Template.item_regex items ++ [Re.REol]))
    with (Re.RSeq Re.RBol (Re.rseq (map Template.item_regex items ++ [Re.REol]))).
  rewrite run_seq. simpl Re.run at 1.
  destruct (run_items_exact values items uri 0 ∅ Hsep Hnd Hin Huri)
    as (g' & -> & Hg & _).
  do 2 f_equal. apply map_eq. intros n. unfold Re.groupdict. simpl.
  destruct (decide (n ∈ Template.names items)) as [Hn|Hn].
  - rewrite groupdict_lookup by done.
    destruct (Hin n Hn) as (v & Hv & _). by rewrite (Hg n v Hn Hv), Hv.
  - by rewrite groupdict_lookup_none, Hout.
Qed.

(** X5.  [$] lets one newline through: a URI that matches and does not
    end in a newline still matches with a newline appended. *)
Theorem matches_accepts_final_newline (t : ResourceTemplate.t)
    (items : list Template.item) (uri : string) :
  ResourceTemplate.uri_template t = Template.text items →
  Template.well_formed items = true →
  PyStr.ends_with_newline uri = false →
  succeeds (ResourceTemplate.matches t uri) →
  succeeds (ResourceTemplate.matches t (uri +:+ String Re.newline "")).
Proof.
  intros Ht Hwf Hnl Hsucc.
  apply (matches_template t items uri Ht Hwf) in Hsucc
    as (w & s' & -> & Htr & Hinst).
  rewrite (trailer_newline w s' Htr Hnl), str_app_nil_r.
  apply (matches_template t items _ Ht Hwf).
  exists w, (String Re.newline ""). split_and!; [done|by right|done].
Qed.

End Expansion.

(** ** Further properties of [Resource] *)

Section ResourceConstruction.
Context `{Externals}.

Lemma alnum_not_slash (c : ascii) : Resource.is_alnum c = true → c ≠ "/"%char.
Proof. by intros Hc ->. Qed.

Lemma mime_type_ok_from_spec (s : string) : ∀ seen,
  Resource.mime_type_ok_from seen s = true
  ↔ ∃ a b, s = a +:+ "/" +:+ b
           ∧ (seen = true ∨ a ≠ "")
           ∧ PyStr.all_chars Resource.is_alnum a = true
           ∧ b ≠ "" ∧ PyStr.all_chars Resource.is_subtype_char b = true.
Proof.
  induction s as [|c s IH]; intros seen; simpl.
  - split; [done|]. by intros ([|??] & b & ? & _).
  - destruct (decide (c = "/"%char)) as [->|Hc].
    + rewrite !andb_true_iff, negb_true_iff, bool_decide_eq_false. split.
      * intros [[-> Hs] Hall]. exists "", s. split_and!; auto.
      * intros ([|a0 a] & b & Heq & Hseen & Ha & Hb & Hall).
        -- change ("" +:+ "/" +:+ b) with (String "/" b) in Heq.
           injection Heq as ->. destruct Hseen as [->|]; done.
        -- change (String a0 a +:+ "/" +:+ b) with (String a0 (a +:+ "/" +:+ b)) in Heq.
           injection Heq as <- _. by simpl in Ha.
    + rewrite andb_true_iff, IH. split.
      * intros (Hcal & a & b & -> & _ & Ha & Hb & Hall).
        exists (String c a), b. simpl. rewrite Hcal, Ha. split_and!; auto.
      * intros ([|a0 a] & b & Heq & _ & Ha & Hb & Hall).
        -- change ("" +:+ "/" +:+ b) with (String "/" b) in Heq.
           by injection Heq as -> _.
        -- change (String a0 a +:+ "/" +:+ b) with (String a0 (a +:+ "/" +:+ b)) in Heq.
           injection Heq as <- ->. simpl in Ha.
           apply andb_true_iff in Ha as [Hc0 Ha].
           split; [done|]. exists a, b. split_and!; auto.
Qed.

(** X6.  The MIME type check of [Resource] accepts exactly the strings
    made of one or more ASCII letters and digits, one [/], and one or
    more ASCII letters, digits, [-], [+] and [.]; so an accepted type
    has a single slash and no parameter part, and the default
    [text/plain] is accepted. *)
Theorem mime_type_ok_spec (s : string) :
  (Resource.mime_type_ok s = true
   ↔ ∃ a b, s = a +:+ "/" +:+ b
            ∧ a ≠ "" ∧ PyStr.all_chars Resource.is_alnum a = true
            ∧ b ≠ "" ∧ PyStr.all_chars Resource.is_subtype_char b = true)
  ∧ (Resource.mime_type_ok s = true →
       PyStr.count_char "/" s = 1 ∧ PyStr.count_char ";" s = 0
       ∧ PyStr.count_char " " s = 0)
  ∧ Resource.mime_type_ok "text/plain" = true.
Proof.
  assert (Hspec : Resource.mime_type_ok s = true
    ↔ ∃ a b, s = a +:+ "/" +:+ b
             ∧ a ≠ "" ∧ PyStr.all_chars Resource.is_alnum a = true
             ∧ b ≠ "" ∧ PyStr.all_chars Resource.is_subtype_char b = true).
  { unfold Resource.mime_type_ok. rewrite mime_type_ok_from_spec. split.
    - intros (a & b & ? & [|] & ? & ? & ?); [done|]. by eauto 10.
    - intros (a & b & ? & ? & ? & ? & ?). exists a, b. by auto 10. }
  split_and!; [done| |done].
  intros (a & b & -> & _ & Ha & _ & Hb)%Hspec.
  rewrite !count_char_app.
  rewrite (all_chars_count_zero Resource.is_alnum "/" a),
    (all_chars_count_zero Resource.is_subtype_char "/" b),
    (all_chars_count_zero Resource.is_alnum ";" a),
    (all_chars_count_zero Resource.is_subtype_char ";" b),
    (all_chars_count_zero Resource.is_alnum " " a),
    (all_chars_count_zero Resource.is_subtype_char " " b) by done.
  done.
Qed.

(** X7.  Construction of a [Resource] succeeds exactly when the [uri]
    is given and is a valid URL and the MIME type (or its default) has
    the required form; a name never makes it fail then.  The resource
    built has a name in every case: the one given when it is not empty,
    else the string form of the URL.  Without a [uri] the error list
    always reports the missing [uri]; with a [uri] that is no URL it
    reports that, and on top of it the missing name when no name was
    given, because the validator of [name] then finds no [uri]. *)
Theorem resource_validate_spec (a : Resource.args) :
  (∀ r, Resource.validate a = inr r ↔
        ∃ s u, Resource.a_uri a = Some s ∧ url_validate s = inr u
               ∧ Resource.mime_type_ok (default "text/plain" (Resource.a_mime_type a))
                 = true
               ∧ r = Resource.Make u
                       (Some (if truthy (Resource.a_name a)
                              then default "" (Resource.a_name a) else url_str u))
                       (Resource.a_title a) (Resource.a_description a)
                       (default "text/plain" (Resource.a_mime_type a))
                       (Resource.a_icons a) (Resource.a_annotations a))
  ∧ (∀ errors, Resource.validate a = inl errors →
       (Resource.a_uri a = None → ("uri", Missing) ∈ errors)
       ∧ (∀ s reason, Resource.a_uri a = Some s → url_validate s = inl reason →
            ("uri", UrlParsing reason) ∈ errors
            ∧ (truthy (Resource.a_name a) = false ↔
               ("name", ValueErrorDetail "Either name or uri must be provided")
               ∈ errors))).
Proof.
  unfold Resource.validate, Resource.validate_uri, Resource.validate_name,
    Resource.validate_mime_type, Resource.set_default_name.
  destruct a as [uri name title description mime icons annotations]. simpl.
  split.
  - intros r. destruct uri as [s|]; simpl.
    + destruct (url_validate s) as [reason|u] eqn:Hu; simpl.
      * split; [by destruct name as [[|??]|], (Resource.mime_type_ok _)|].
        intros (s' & u' & [= <-] & Hu' & _). congruence.
      * destruct name as [[|c n]|]; simpl;
          (destruct (Resource.mime_type_ok _) eqn:Hm;
           [split; [intros [= <-]; by eauto 10
                   |intros (s' & u' & [= <-] & Hu' & _ & ->); congruence]
           |split; [done|intros (s' & u' & _ & _ & ? & _); done]]).
    + split; [by destruct name as [[|??]|], (Resource.mime_type_ok _)|].
      by intros (s' & u' & ? & _).
  - intros errors Herrors. split.
    + intros ->. simpl in Herrors.
      destruct name as [[|??]|], (Resource.mime_type_ok _); simpl in Herrors;
        injection Herrors as <-; set_solver.
    + intros s reason -> Hs. simpl in Herrors. rewrite Hs in Herrors. simpl in Herrors.
      destruct name as [[|??]|], (Resource.mime_type_ok _); simpl in Herrors;
        injection Herrors as <-; simpl; (split; [set_solver|]);
        (split; [intros Hname; try done; set_solver
                |intros Hin; try done; exfalso; set_solver]).
Qed.

End ResourceConstruction.

(** ** Further properties of [create_resource] and [from_function] *)

Section TemplateLifeCycle.
Context `{Externals}.

(** A template whose MIME type [Resource] rejects yields no resource. *)
Lemma create_resource_bad_mime_type (t : ResourceTemplate.t) (uri : string)
    (params : gmap string pyval) (context : pyval) (σ : Py.state) :
  Resource.mime_type_ok (ResourceTemplate.mime_type t) = false →
  ∃ e, (ResourceTemplate.create_resource t uri params context σ).1 = inl e.
Proof.
  intros Hbad. rewrite create_resource_spec.
  destruct (FuncMetadata.call_fn_with_arg_validation _ _ _ _ _ σ) as [[e|v] τ]; simpl.
  - destruct (is_Exception e); by eauto.
  - unfold Resource.validate, Resource.validate_uri, Resource.validate_name,
      Resource.validate_mime_type, ResourceTemplate.resource_args. simpl.
    rewrite Hbad.
    destruct (url_validate uri), (ResourceTemplate.name t); simpl; by eauto.
Qed.

(** X8.  Whatever goes wrong inside [create_resource], the exception
    that leaves it is either a [ValueError] whose message starts with
    "Error creating resource from template: ", or an exception that is
    no [Exception] at all; a pydantic [ValidationError], in particular,
    never leaves it. *)
Theorem create_resource_raises_only (t : ResourceTemplate.t) (uri : string)
    (params : gmap string pyval) (context : pyval) (σ σ' : Py.state) (e : exn) :
  ResourceTemplate.create_resource t uri params context σ = (inl e, σ') →
  (∃ cause, e = ValueError ("Error creating resource from template: " +:+ cause))
  ∨ is_Exception e = false.
Proof.
  rewrite create_resource_spec.
  destruct (FuncMetadata.call_fn_with_arg_validation _ _ _ _ _ σ) as [[e0|v] τ].
  - destruct (is_Exception e0) eqn:He0; intros [= <- <-]; [left|by right].
    by eexists.
  - destruct (Resource.validate _); [|done]. intros [= <- <-]. left. by eexists.
Qed.

(** X9.  [create_resource] succeeds exactly when the validated call
    returns, the [uri] is a valid URL and the template's MIME type has
    the form [Resource] demands; the resource then reads back the value
    the call returned.  In every case [create_resource] leaves the
    state as the validated call left it. *)
Theorem create_resource_succeeds_iff (t : ResourceTemplate.t) (uri : string)
    (params : gmap string pyval) (context : pyval) (σ : Py.state) :
  let out := validated_call t params context σ in
  let made := ResourceTemplate.create_resource t uri params context σ in
  made.2 = out.2
  ∧ ((∃ r, made.1 = inr r)
     ↔ (∃ v, out.1 = inr v) ∧ (∃ u, url_validate uri = inr u)
       ∧ Resource.mime_type_ok (ResourceTemplate.mime_type t) = true)
  ∧ (∀ r v, made.1 = inr r → out.1 = inr v →
       ∀ c τ, FunctionResource.read r c τ = (inr v, τ)).
Proof.
  intros out made. unfold made, out, validated_call.
  rewrite create_resource_spec.
  destruct (FuncMetadata.call_fn_with_arg_validation _ _ _ _ _ σ) as [[e|v] τ]; simpl.
  - destruct (is_Exception e); simpl; (split_and!; [done| |done]);
      (split; [by intros [r ?]|by intros ([v ?] & _)]).
  - unfold Resource.validate, Resource.validate_uri, Resource.validate_name,
      Resource.validate_mime_type, ResourceTemplate.resource_args. simpl.
    destruct (url_validate uri) as [reason|u]; simpl.
    + destruct (ResourceTemplate.name t), (Resource.mime_type_ok _); simpl;
        (split_and!; [done| |done]);
        (split; [by intros [r ?]|by intros (_ & [u ?] & _)]).
    + destruct (ResourceTemplate.name t), (Resource.mime_type_ok _); simpl;
        (split_and!; [done| |]);
        try (split; [by intros [r ?]|by intros (_ & _ & ?)]);
        try (split; [by eauto|by eauto]);
        try done;
        by intros r v' [= <-] [= <-] c τ'.
Qed.

(** X10.  [from_function] takes any non-empty [mime_type] as it is,
    without the check that [Resource] makes; on a template built with a
    MIME type that [Resource] does not accept, [create_resource] fails
    for every URI, parameters and context. *)
Theorem from_function_unchecked_mime_type (fn : pyfunc) (uri_template : string)
    (name title description : option string) (mime_type : string)
    (icons : option (list Icon)) (annotations : option Annotations)
    (context_kwarg : option string) (t : ResourceTemplate.t) :
  ResourceTemplate.from_function fn uri_template name title description
    (Some mime_type) icons annotations context_kwarg = inr t →
  mime_type ≠ "" →
  ResourceTemplate.mime_type t = mime_type
  ∧ (Resource.mime_type_ok mime_type = false →
     ∀ uri params context σ,
       ∃ e, (ResourceTemplate.create_resource t uri params context σ).1 = inl e).
Proof.
  intros Hfrom Hne.
  assert (Hmime : ResourceTemplate.mime_type t = mime_type).
  { unfold ResourceTemplate.from_function in Hfrom.
    destruct (decide (_ = "<lambda>")); [done|].
    injection Hfrom as <-. simpl. by destruct mime_type. }
  split; [done|]. intros Hbad uri params context σ.
  apply create_resource_bad_mime_type. by rewrite Hmime.
Qed.

(** X11.  A template that [from_function] returns keeps the
    [uri_template], title, icons, annotations and producer it was given;
    its name is never [<lambda>]; its description is never [None]: it
    is the description given when that is not empty, else the
    producer's docstring when that is not empty, else the empty string;
    its MIME type is never empty: the one given when that is not empty,
    else [text/plain]; and a context parameter name that is given is
    kept. *)
Theorem from_function_defaults (fn : pyfunc) (uri_template : string)
    (name title description mime_type : option string)
    (icons : option (list Icon)) (annotations : option Annotations)
    (context_kwarg : option string) (t : ResourceTemplate.t) :
  ResourceTemplate.from_function fn uri_template name title description mime_type
    icons annotations context_kwarg = inr t →
  ResourceTemplate.uri_template t = uri_template
  ∧ ResourceTemplate.title t = title
  ∧ ResourceTemplate.icons t = icons
  ∧ ResourceTemplate.annotations t = annotations
  ∧ ResourceTemplate.fn t = fn
  ∧ ResourceTemplate.name t ≠ "<lambda>"
  ∧ ResourceTemplate.description t
    = Some (if truthy description then default "" description
            else if truthy (fn_doc fn) then default "" (fn_doc fn) else "")
  ∧ ResourceTemplate.mime_type t
    = (if truthy mime_type then default "" mime_type else "text/plain")
  ∧ ResourceTemplate.mime_type t ≠ ""
  ∧ (∀ c, context_kwarg = Some c → ResourceTemplate.context_kwarg t = Some c).
Proof.
  unfold ResourceTemplate.from_function.
  destruct (decide (_ = "<lambda>")) as [|Hname]; [done|].
  intros [= <-]. simpl. split_and!; try done.
  - by destruct description as [[|??]|], (fn_doc fn) as [[|??]|].
  - by destruct mime_type as [[|??]|].
  - by destruct mime_type as [[|??]|].
  - by intros c ->.
Qed.

(** X12.  [_is_async_callable] looks through any number of
    [functools.partial] layers: around a function it answers whether
    the function was declared [async def], around an instance whether
    its [__call__] was; for something that cannot be called it answers
    no.  The [is_async] field of a template that [from_function] returns
    is the answer of [_is_async_callable] for the producer: true exactly
    when the producer was declared [async def]. *)
Theorem is_async_callable_partials (keywords : list (gmap string pyval)) :
  (∀ f, Callables._is_async_callable (Callables.partials keywords (Callables.Function f))
        = fn_is_coroutine f)
  ∧ (∀ call, Callables._is_async_callable
               (Callables.partials keywords (Callables.Instance call))
             = fn_is_coroutine call)
  ∧ (∀ v, Callables._is_async_callable (Callables.NotCallable v) = false)
  ∧ (∀ (fn : pyfunc) uri_template name title description mime_type icons annotations
       context_kwarg (t : ResourceTemplate.t),
       ResourceTemplate.from_function fn uri_template name title description mime_type
         icons annotations context_kwarg = inr t →
       ResourceTemplate.is_async t
       = Callables._is_async_callable (Callables.Function fn)
       ∧ ResourceTemplate.is_async t = fn_is_coroutine fn).
Proof.
  assert (Hunwrap : ∀ obj,
    Callables._is_async_callable (Callables.partials keywords obj)
    = Callables._is_async_callable obj).
  { intros obj. unfold Callables._is_async_callable.
    induction keywords as [|k ks IH]; [done|]. simpl. exact IH. }
  split_and!.
  - intros f. rewrite Hunwrap. unfold Callables._is_async_callable. simpl.
    by rewrite orb_false_r.
  - intros call. by rewrite Hunwrap.
  - done.
  - intros fn ut name title description mime_type icons annotations ck t.
    unfold ResourceTemplate.from_function.
    destruct (decide (_ = "<lambda>")); [done|]. intros [= <-]. simpl.
    unfold Callables._is_async_callable, ResourceTemplate._is_async_callable. simpl.
    by rewrite orb_false_r.
Qed.

End TemplateLifeCycle.

(** ** The further properties in the concrete setting *)

Lemma matches_then_expand_witness :
  ResourceTemplate.matches Demo.weather Demo.paris = Returns (Some Demo.paris_params)
  ∧ expand Demo.weather_items Demo.paris_params = Some Demo.paris.
Proof.
  assert (Hm : ResourceTemplate.matches Demo.weather Demo.paris
               = Returns (Some Demo.paris_params)) by (by vm_compute).
  split; [exact Hm|].
  destruct (@matches_then_expand Demo.externals Demo.weather Demo.weather_items
              Demo.paris Demo.paris_params eq_refl eq_refl Hm) as [_ Hexp].
  exact (Hexp eq_refl).
Defined.

Lemma expand_then_matches_witness :
  expand Demo.weather_items Demo.paris_params = Some Demo.paris
  ∧ ResourceTemplate.matches Demo.weather Demo.paris = Returns (Some Demo.paris_params).
Proof.
  split; [reflexivity|].
  apply (@expand_then_matches Demo.externals Demo.weather Demo.weather_items
           Demo.paris_params Demo.paris); [reflexivity|reflexivity|reflexivity| |reflexivity].
  split.
  - intros n ->%list_elem_of_singleton. exists "paris". by split_and!.
  - intros n Hn%not_elem_of_cons. unfold Demo.paris_params.
    apply lookup_singleton_ne. by destruct Hn.
Defined.

Lemma matches_accepts_final_newline_witness :
  PyStr.ends_with_newline Demo.paris = false
  ∧ succeeds (ResourceTemplate.matches Demo.weather
                (Demo.paris +:+ String Re.newline "")).
Proof.
  split; [reflexivity|].
  apply (@matches_accepts_final_newline Demo.externals Demo.weather Demo.weather_items
           Demo.paris); [reflexivity|reflexivity|reflexivity|].
  exists Demo.paris_params. by vm_compute.
Defined.

Lemma matches_duplicate_name_raises_witness :
  Template.text pair_items = "pair://{x}/{x}"
  ∧ ResourceTemplate.matches (Demo.template "pair://{x}/{x}" "pair") "pair://a/b"
    = Raises Re.RedefinedGroup.
Proof.
  split; [reflexivity|].
  apply (@matches_duplicate_name_raises Demo.externals
           (Demo.template "pair://{x}/{x}" "pair") pair_items); reflexivity.
Defined.

Lemma matches_stray_brace_raises_witness :
  ResourceTemplate.matches (Demo.template "close://x}" "close") "close://a"
  = Raises Re.UnbalancedParen
  ∧ ResourceTemplate.matches (Demo.template "open://{x" "open") "open://a"
    = Raises Re.UnterminatedName.
Proof.
  split.
  - apply (@matches_stray_brace_raises Demo.externals
             (Demo.template "close://x}" "close") "close://x" "" "close://a");
      reflexivity.
  - apply (@matches_stray_brace_raises Demo.externals
             (Demo.template "open://{x" "open") "open://" "x" "open://a");
      reflexivity.
Defined.

Lemma demo_create_resource_atlantis :
  ResourceTemplate.create_resource Demo.weather "weather://atlantis/current"
    {[ "city" := VStr "atlantis" ]} Demo.ctx Demo.start
  = (inl (ValueError "Error creating resource from template: unknown city"),
     @Py.State Demo.externals 1
       [Py.EValidate {[ "city" := VStr "atlantis" ]};
        Py.EInvoke "get_weather"
          ({[ "ctx" := Demo.ctx ]} ∪ {[ "city" := VStr "atlantis" ]})]).
Proof. rewrite create_resource_spec. reflexivity. Qed.

Lemma create_resource_raises_only_witness :
  (∃ cause,
     ValueError "Error creating resource from template: unknown city"
     = ValueError ("Error creating resource from template: " +:+ cause))
  ∨ is_Exception (ValueError "Error creating resource from template: unknown city")
    = false.
Proof.
  exact (@create_resource_raises_only Demo.externals Demo.weather
           "weather://atlantis/current" {[ "city" := VStr "atlantis" ]} Demo.ctx
           Demo.start _ _ demo_create_resource_atlantis).
Defined.

Lemma demo_from_function_charset :
  ResourceTemplate.from_function Demo.get_weather "weather://{city}/current"
    None None None (Some "text/plain; charset=utf-8") None None None
  = inr charset_template.
Proof. reflexivity. Qed.

Lemma from_function_unchecked_mime_type_witness :
  ResourceTemplate.mime_type charset_template = "text/plain; charset=utf-8"
  ∧ ∃ e, (ResourceTemplate.create_resource charset_template Demo.paris
            Demo.paris_params Demo.ctx Demo.start).1 = inl e.
Proof.
  destruct (@from_function_unchecked_mime_type Demo.externals Demo.get_weather
              "weather://{city}/current" None None None "text/plain; charset=utf-8"
              None None None charset_template demo_from_function_charset)
    as [Hmime Hfail]; [done|].
  split; [exact Hmime|].
  exact (Hfail eq_refl Demo.paris Demo.paris_params Demo.ctx Demo.start).
Defined.

Lemma from_function_defaults_witness :
  ResourceTemplate.description Demo.weather = Some "Current weather of a city."
  ∧ ResourceTemplate.mime_type Demo.weather = "text/plain".
Proof.
  destruct (@from_function_defaults Demo.externals Demo.get_weather
              "weather://{city}/current" None None None None None None None
              Demo.weather demo_from_function)
    as (_ & _ & _ & _ & _ & _ & Hdescription & Hmime & _).
  split; [exact Hdescription|exact Hmime].
Defined.
